(** * telegraph-img-uploader: a shallow embedding of [src/app.js]

    The script uploads every image of a directory to an image host, keeps the
    outcomes in a JSON file, and publishes the successful ones as a Telegraph
    page that is created and then edited.

    Modelling choices, all visible in the definitions below:
    - effects are a trace of events ([Trace]); an [async] function of the
      source is a computation in the monad [M], which threads the trace and
      ends with a value, a thrown exception or [process.exit];
    - the outside world (image host, Telegraph API, file system, clock) is a
      record [Env] of oracles; the image host answers the n-th upload request
      of the run;
    - [require("./config")] is not part of the sources: its three values are
      the record [ImgsConfig];
    - local file-system writes ([mkdirSync], [writeFileSync], the log file)
      are taken to succeed; log lines are recorded without their timestamp. *)

From Stdlib Require Import String Ascii List Arith Bool Lia DecimalString.
Import ListNotations.
Open Scope string_scope.
Open Scope nat_scope.

(** ** JavaScript values *)

(** Decimal rendering of a number inside a template literal. *)
Definition string_of_nat (n : nat) : string :=
  NilEmpty.string_of_uint (Nat.to_uint n).

(** A template literal [`${v}`] where [v] is a string or [null]. *)
Definition template_of (v : option string) : string :=
  match v with
  | Some s => s
  | None => "null"
  end.

(** The exceptions the script can see; [message] is [error.message]. *)
Inductive Exn : Type :=
| Error (msg : string)
| TypeError (msg : string)
| SyntaxError (msg : string).

Definition message (e : Exn) : string :=
  match e with
  | Error m | TypeError m | SyntaxError m => m
  end.

(** V8's wording for the [TypeError]s the script can run into. *)
Definition null_length_message : string :=
  "Cannot read properties of null (reading 'length')".
Definition null_status_message : string :=
  "Cannot read properties of null (reading 'status')".
Definition undefined_status_message : string :=
  "Cannot read properties of undefined (reading 'status')".
Definition filter_not_function_message : string :=
  "results.filter is not a function".

(** ** Configuration (lines 5-26) *)

(** The module [./config], which is not under [src/]. *)
Record ImgsConfig : Type := {
  imgs_PAGE_URL : string;
  imgs_TELEGRAPH_TITLE : string;
  imgs_IMAGE_DIR : string
}.

Record Config : Type := {
  PAGE_URL : string;
  TELEGRAPH_TITLE : string;
  IMAGE_DIR : string;
  BASE_URL : string;
  ALLOWED_EXT : list string;
  CONCURRENCY : nat;
  MD_AUTHOR : string;
  TELEGRAPH_SHORT_NAME : string;
  TELEGRAPH_AUTHOR : string;
  AUTHOR_URL : string;
  RETRY_TIMES : nat;
  RETRY_DELAY : nat;
  LOG_DIR : string
}.

(** The object literal of lines 8-22. *)
Definition app_CONFIG (IMGS_CONFIG : ImgsConfig) : Config := {|
  PAGE_URL := imgs_PAGE_URL IMGS_CONFIG;
  TELEGRAPH_TITLE := imgs_TELEGRAPH_TITLE IMGS_CONFIG;
  IMAGE_DIR := imgs_IMAGE_DIR IMGS_CONFIG;
  BASE_URL := "https://im.gurl.eu.org";
  ALLOWED_EXT := [".jpg"; ".jpeg"; ".png"; ".gif"; ".webp"];
  CONCURRENCY := 10;
  MD_AUTHOR := "Kafu Chino";
  TELEGRAPH_SHORT_NAME := "BocchiUploader";
  TELEGRAPH_AUTHOR := "Kafu Chino";
  AUTHOR_URL := "https://github.com/etsuyou/telegraph-img-uploader";
  RETRY_TIMES := 10;
  RETRY_DELAY := 10000;
  LOG_DIR := "./output/logs"
|}.

(** Lines 25-26. *)
Definition RESULT_MD (c : Config) : string := "./output/" ++ PAGE_URL c ++ ".md".
Definition RESULT_JSON (c : Config) : string := "./output/" ++ PAGE_URL c ++ ".json".

(** ** Data model *)

(** The object [uploadFile] returns and the JSON file stores.  [url] is
    [null] in an error outcome; the [error] key is absent from a success. *)
Record UploadOutcome : Type := {
  filename : string;
  url : option string;
  status : string;
  error : option string;
  retries : nat
}.

(** An element of the [results] array: an outcome object, the [undefined]
    a function returns by running off its end, or a [null] read from JSON. *)
Inductive ResultItem : Type :=
| Outcome (o : UploadOutcome)
| Undefined
| Null.

(** A Telegraph content node [{tag, attrs?, children?}], or a text child. *)
#[local] Unset Elimination Schemes.
Inductive Node : Type :=
| Text (s : string)
| Element (tag : string) (attrs : option (option string))
          (children : option (list Node)).
#[local] Set Elimination Schemes.

(** [attrs] is [{src: v}] where [v] is a string or [null]. *)
Definition attrs_src (v : option string) : option (option string) := Some v.

(** ** The outside world *)

(** What [await axios.post(BASE_URL/upload)] followed by
    [response.data[0].src] comes to: a [src] to append to the base URL, or an
    exception (rejected request, malformed body) with its message. *)
Inductive UploadResponse : Type :=
| Uploaded (src : string)
| UploadFailed (msg : string).

(** A Telegraph call: [data.ok] with the value read from [data.result], or
    an exception ([data.error], or a rejected request) with its message. *)
Inductive ApiResponse : Type :=
| ApiOk (value : string)
| ApiFailed (msg : string).

(** The value of the variable [results] of [main]: an array, [null], or
    any other JSON value (none of which has a [filter] method). *)
Inductive ResultsValue : Type :=
| VArray (items : list ResultItem)
| VNull
| VOther.

(** What [JSON.parse(fs.readFileSync(CONFIG.RESULT_JSON, "utf-8"))] does:
    it yields a value or throws a [SyntaxError]. *)
Inductive ParseResult : Type :=
| Parsed (v : ResultsValue)
| ParseError (msg : string).

Record Env : Type := {
  (** the answer to the n-th upload request of the run, for a file *)
  image_host : nat -> string -> UploadResponse;
  telegraph_createAccount : ApiResponse;
  (** access token, title, content *)
  telegraph_createPage : string -> string -> list Node -> ApiResponse;
  (** access token, path, title, content *)
  telegraph_editPage : string -> string -> string -> list Node -> ApiResponse;
  (** [readdirSync(IMAGE_DIR)], [None] when the directory does not exist *)
  image_dir : option (list string);
  (** [path.extname(file).toLowerCase()] *)
  extname_lower : string -> string;
  (** the file [RESULT_JSON] as [JSON.parse] reads it, [None] when it does
      not exist *)
  result_json : option ParseResult;
  (** [path.resolve] *)
  path_resolve : string -> string;
  (** [new Date().getFullYear()] *)
  current_year : nat
}.

Inductive Level : Type := INFO | ERROR.

Inductive Event : Type :=
| ELog (level : Level) (text : string)
| EUploadRequest (endpoint : string) (dir file : string)
| EUploadSettled (file : string) (r : UploadResponse)
| ESleep (ms : nat)
| EProgress (done total : nat)
| EWriteResults (path : string) (results : list ResultItem)
| EWriteFile (path : string) (text : string)
| ECreateAccount (short_name author_name : string)
| ECreatePage (access_token title : string) (content : list Node)
| EEditPage (access_token path title : string) (content : list Node)
            (author_name author_url : string).

Definition Trace : Type := list Event.

(** ** The monad of the script *)

Inductive Result (A : Type) : Type :=
| Ret (a : A)
| Throw (e : Exn)
| Exit (code : nat).
Arguments Ret {A} a.
Arguments Throw {A} e.
Arguments Exit {A} code.

Definition M (A : Type) : Type := Trace -> Result A * Trace.

Definition ret {A} (a : A) : M A := fun t => (Ret a, t).

Definition bind {A B} (m : M A) (k : A -> M B) : M B :=
  fun t =>
    match m t with
    | (Ret a, t') => k a t'
    | (Throw e, t') => (Throw e, t')
    | (Exit c, t') => (Exit c, t')
    end.

Definition throw {A} (e : Exn) : M A := fun t => (Throw e, t).

(** [process.exit(code)]. *)
Definition process_exit {A} (code : nat) : M A := fun t => (Exit code, t).

(** [try { m } catch (error) { handler(error) }]. *)
Definition try_catch {A} (m : M A) (handler : Exn -> M A) : M A :=
  fun t =>
    match m t with
    | (Throw e, t') => handler e t'
    | other => other
    end.

Definition emit (e : Event) : M unit := fun t => (Ret tt, (t ++ [e])%list).

Declare Scope js_scope.
Delimit Scope js_scope with js.
Notation "x <- c1 ;; c2" := (bind c1 (fun x => c2))
  (at level 61, c1 at next level, right associativity) : js_scope.
Notation "' pat <- c1 ;; c2" :=
  (bind c1 (fun x => match x with pat => c2 end))
  (at level 61, pat pattern, c1 at next level, right associativity) : js_scope.
Notation "c1 ;; c2" := (bind c1 (fun _ => c2))
  (at level 61, right associativity) : js_scope.
Open Scope js_scope.

(** Number of upload requests sent so far. *)
Fixpoint upload_calls (t : Trace) : nat :=
  match t with
  | [] => 0
  | EUploadRequest _ _ _ :: t' => S (upload_calls t')
  | _ :: t' => upload_calls t'
  end.

Section App.

Variable CONFIG : Config.
Variable env : Env.

(** ** [writeLog] (lines 29-56): its own [try]/[catch] swallows every
    failure, so it only ever records the line. *)
Definition writeLog (level : Level) (text : string) : M unit :=
  emit (ELog level text).

(** [await axios.post(`${CONFIG.BASE_URL}/upload`, formData, ...)] with the
    read stream of [path.join(CONFIG.IMAGE_DIR, file)] (lines 94-100). *)
Definition axios_post_upload (file : string) : M UploadResponse :=
  fun t =>
    let r := image_host env (upload_calls t) file in
    (Ret r,
     (t ++ [EUploadRequest (BASE_URL CONFIG ++ "/upload") (IMAGE_DIR CONFIG) file;
            EUploadSettled file r])%list).

(** [await new Promise((resolve) => setTimeout(resolve, ms))]. *)
Definition sleep (ms : nat) : M unit := emit (ESleep ms).

(** ** [uploadFile] (lines 82-123) *)

Definition upload_log_line (file : string) (index total retryCount : nat)
  : string :=
  "[" ++ string_of_nat (index + 1) ++ "/" ++ string_of_nat total ++ "] 正在上传 "
  ++ file
  ++ (if 0 <? retryCount
      then " (第 " ++ string_of_nat retryCount ++ " 次重试)" else "").

(** The [while] loop.  [fuel] bounds the number of iterations the model
    unrolls.  [Undefined] is what the function would return by leaving the
    loop through its condition, and also what the model yields when the
    fuel is used up.  [uploadFile_returns] shows that neither happens: the
    loop, started as [uploadFile] starts it, always leaves through one of
    its two [return]s. *)
Fixpoint uploadFile_loop (fuel : nat) (file : string)
    (index total retryCount : nat) : M ResultItem :=
  match fuel with
  | O => ret Undefined
  | S fuel' =>
    if retryCount <=? RETRY_TIMES CONFIG then
      writeLog INFO (upload_log_line file index total retryCount) ;;
      r <- axios_post_upload file ;;
      match r with
      | Uploaded src =>
          ret (Outcome {| filename := file;
                          url := Some (BASE_URL CONFIG ++ src);
                          status := "success";
                          error := None;
                          retries := retryCount |})
      | UploadFailed msg =>
          if retryCount =? RETRY_TIMES CONFIG then
            writeLog ERROR (file ++ ": 超过最大重试次数 ("
                            ++ string_of_nat (RETRY_TIMES CONFIG) ++ ")") ;;
            ret (Outcome {| filename := file;
                            url := None;
                            status := "error";
                            error := Some msg;
                            retries := retryCount |})
          else
            sleep (RETRY_DELAY CONFIG) ;;
            uploadFile_loop fuel' file index total (S retryCount)
      end
    else ret Undefined
  end.

Definition uploadFile (file : string) (index total : nat) : M ResultItem :=
  uploadFile_loop (S (S (RETRY_TIMES CONFIG))) file index total 0.

(** ** [concurrentUpload] (lines 126-140) *)

(** The [for] loop from index [i] on; [rest] is [files.slice(i)].  The
    progress line is recorded by its two counters. *)
Fixpoint concurrentUpload_loop (total : nat) (rest : list string) (i : nat)
    (results : list ResultItem) : M (list ResultItem) :=
  match rest with
  | [] => ret results
  | file :: rest' =>
      result <- uploadFile file i total ;;
      emit (EProgress (i + 1) total) ;;
      concurrentUpload_loop total rest' (S i) (results ++ [result])%list
  end.

Definition concurrentUpload (files : list string) : M (list ResultItem) :=
  let total := length files in
  writeLog INFO ("发现 " ++ string_of_nat total ++ " 张图片，开始上传...") ;;
  concurrentUpload_loop total files 0 [].

(** ** [getImageFiles] (lines 59-79) *)

Definition getImageFiles : M (list string) :=
  try_catch
    (match image_dir env with
     | None => throw (Error ("图片目录 " ++ IMAGE_DIR CONFIG ++ " 不存在"))
     | Some files =>
         let imageFiles :=
           filter (fun file =>
                     existsb (String.eqb (extname_lower env file))
                             (ALLOWED_EXT CONFIG))
                  files in
         if length imageFiles =? 0 then
           throw (Error ("在 " ++ IMAGE_DIR CONFIG ++ " 中未找到支持的图片文件"))
         else ret imageFiles
     end)
    (fun error =>
       writeLog ERROR ("初始化错误: " ++ message error) ;;
       process_exit 1).

(** ** [generateMarkdown] (lines 143-154) *)

Definition newline : string := String (Ascii.ascii_of_nat 10) "".

Definition generateMarkdown (items : list UploadOutcome)
    (accessToken url' : string) : string :=
  let heading :=
    [ "# " ++ TELEGRAPH_TITLE CONFIG ++ newline;
      "**上传者**: " ++ MD_AUTHOR CONFIG;
      "**accessToken**: " ++ accessToken;
      "**url**: " ++ url';
      "**图片数量**: " ++ string_of_nat (length items) ++ newline ++ newline ] in
  let images :=
    map (fun item =>
           "![" ++ filename item ++ "](" ++ template_of (url item) ++ ")")
        items in
  let footer := [ newline ++ newline ++ "> 本文件由自动上传脚本生成" ] in
  String.concat newline (heading ++ images ++ footer)%list.

(** ** The Telegraph calls (lines 157-242) *)

Definition createTelegraphAccount : M string :=
  try_catch
    (emit (ECreateAccount (TELEGRAPH_SHORT_NAME CONFIG)
                          (TELEGRAPH_AUTHOR CONFIG)) ;;
     match telegraph_createAccount env with
     | ApiOk access_token =>
         writeLog INFO "Telegraph 账户创建成功" ;;
         ret access_token
     | ApiFailed msg => throw (Error msg)
     end)
    (fun error =>
       writeLog ERROR ("创建 Telegraph 账户失败: " ++ message error) ;;
       throw error).

(** The array [content] of lines 182-191. *)
Definition createTelegraphPage_content (images : list UploadOutcome)
  : list Node :=
  Element "p" None
    (Some [Text ("共上传 " ++ string_of_nat (length images) ++ " 张图片")])
  :: map (fun img =>
            Element "figure" None
              (Some [ Element "img" (attrs_src (url img)) None;
                      Element "figcaption" None
                              (Some [Text (filename img)]) ]))
         images.

Definition createTelegraphPage (accessToken : string)
    (images : list UploadOutcome) : M string :=
  try_catch
    (let content := createTelegraphPage_content images in
     let currentYear := current_year env in
     let title := PAGE_URL CONFIG ++ "-" ++ string_of_nat currentYear in
     emit (ECreatePage accessToken title content) ;;
     match telegraph_createPage env accessToken title content with
     | ApiOk page_url =>
         writeLog INFO "Telegraph 页面创建成功" ;;
         ret page_url
     | ApiFailed msg => throw (Error msg)
     end)
    (fun error =>
       writeLog ERROR ("创建 Telegraph 页面失败: " ++ message error) ;;
       throw error).

Definition editTelegraphPage (accessToken path newTitle : string)
    (content : list Node) : M string :=
  try_catch
    (emit (EEditPage accessToken path newTitle content
                     (TELEGRAPH_AUTHOR CONFIG) (AUTHOR_URL CONFIG)) ;;
     match telegraph_editPage env accessToken path newTitle content with
     | ApiOk page_url =>
         writeLog INFO "页面标题修改成功" ;;
         ret page_url
     | ApiFailed msg => throw (Error msg)
     end)
    (fun error =>
       writeLog ERROR ("修改 Telegraph 页面失败: " ++ message error) ;;
       throw error).

(** ** [main] (lines 245-318), stage by stage

    The directories of lines 249-253 are taken to exist or to be created
    without an error; this leaves no event. *)

(** [pageUrl.split("/").pop()]: what follows the last slash. *)
Fixpoint split_pop_from (s acc : string) : string :=
  match s with
  | EmptyString => acc
  | String c s' =>
      if Ascii.eqb c "/"%char then split_pop_from s' ""
      else split_pop_from s' (acc ++ String c "")
  end.
Definition split_pop (s : string) : string := split_pop_from s "".

(** Lines 255-267: the pair ([results], [imageFiles]) after the
    [if]/[else] on the existence of [RESULT_JSON]. *)
Definition main_load : M (ResultsValue * option (list string)) :=
  match result_json env with
  | None =>
      imageFiles <- getImageFiles ;;
      results <- concurrentUpload imageFiles ;;
      emit (EWriteResults (RESULT_JSON CONFIG) results) ;;
      ret (VArray results, Some imageFiles)
  | Some (Parsed results) => ret (results, None)
  | Some (ParseError msg) => throw (SyntaxError msg)
  end.

(** [items.filter((item) => item.status === "success")]: reading [status]
    off [null] or [undefined] throws. *)
Fixpoint filter_success (items : list ResultItem) : M (list UploadOutcome) :=
  match items with
  | [] => ret []
  | Outcome item :: items' =>
      kept <- filter_success items' ;;
      ret (if String.eqb (status item) "success"
           then item :: kept else kept)
  | Undefined :: _ => throw (TypeError undefined_status_message)
  | Null :: _ => throw (TypeError null_status_message)
  end.

(** Lines 269-274. *)
Definition main_successResults (results : ResultsValue)
  : M (list UploadOutcome) :=
  let results :=
    match results with
    | VNull => VArray []
    | other => other
    end in
  match results with
  | VArray items => filter_success items
  | _ => throw (TypeError filter_not_function_message)
  end.

(** The [content] argument of the [editTelegraphPage] call, lines 290-296. *)
Definition main_edit_content (successResults : list UploadOutcome)
  : list Node :=
  map (fun img =>
         Element "figure" None
           (Some [ Element "img" (attrs_src (url img)) None;
                   Element "figcaption" None
                           (Some [Text (filename img)]) ]))
      successResults.

(** Lines 276-305. *)
Definition main_assemble (successResults : list UploadOutcome) : M unit :=
  if 0 <? length successResults then
    accessToken <- createTelegraphAccount ;;
    writeLog INFO ("获取 accessToken: " ++ accessToken) ;;
    pageUrl <- createTelegraphPage accessToken successResults ;;
    let pagePath := split_pop pageUrl in
    updatedPageUrl <- editTelegraphPage accessToken pagePath
                        (TELEGRAPH_TITLE CONFIG)
                        (main_edit_content successResults) ;;
    writeLog INFO ("最终页面地址：" ++ updatedPageUrl) ;;
    emit (EWriteFile (RESULT_MD CONFIG)
            (generateMarkdown successResults accessToken updatedPageUrl))
  else ret tt.

(** The text of the first log line of lines 307-310. *)
Definition totals_line (succeeded total : nat) : string :=
  newline ++ "上传完成！" ++ newline ++ "成功上传 "
  ++ string_of_nat succeeded ++ "/" ++ string_of_nat total ++ " 张图片".

(** Lines 307-313.  The template literal reads [imageFiles.length] before
    [writeLog] is called. *)
Definition main_report (successResults : list UploadOutcome)
    (imageFiles : option (list string)) : M unit :=
  match imageFiles with
  | None => throw (TypeError null_length_message)
  | Some files =>
      writeLog INFO (totals_line (length successResults) (length files)) ;;
      writeLog INFO ("JSON 结果：" ++ path_resolve env (RESULT_JSON CONFIG)) ;;
      writeLog INFO ("Markdown 文件：" ++ path_resolve env (RESULT_MD CONFIG)) ;;
      writeLog INFO "程序正常退出"
  end.

Definition main : M unit :=
  writeLog INFO "程序启动" ;;
  try_catch
    ('(results, imageFiles) <- main_load ;;
     successResults <- main_successResults results ;;
     main_assemble successResults ;;
     main_report successResults imageFiles)
    (fun error =>
       writeLog ERROR ("程序运行出错: " ++ message error) ;;
       process_exit 1).

End App.

(** * Vocabulary of the statements *)

(** The outcome [uploadFile] returns for a success at [retryCount]. *)
Definition success_outcome (CONFIG : Config) (file src : string) (retryCount : nat)
  : UploadOutcome :=
  {| filename := file; url := Some (BASE_URL CONFIG ++ src);
     status := "success"; error := None; retries := retryCount |}.

(** The outcome [uploadFile] returns once the retries are used up. *)
Definition error_outcome (CONFIG : Config) (file msg : string) (retryCount : nat)
  : UploadOutcome :=
  {| filename := file; url := None;
     status := "error"; error := Some msg; retries := retryCount |}.

(** What holds of every outcome the loop can return from [retryCount] on. *)
Definition settled_from (CONFIG : Config) (file : string) (retryCount : nat) (o : UploadOutcome)
  : Prop :=
  (exists src k, retryCount <= k <= RETRY_TIMES CONFIG
           /\ o = success_outcome CONFIG file src k)
  \/ (exists msg, o = error_outcome CONFIG file msg (RETRY_TIMES CONFIG)).

(** [concurrentUpload files] cut short after the first [n] rounds of its
    [for] loop: its trace is the one in which [uploadFile] is called for
    [files[n]]. *)
Definition concurrentUpload_upto (CONFIG : Config) (env : Env)
    (files : list string) (n : nat) : M (list ResultItem) :=
  let total := length files in
  writeLog INFO ("发现 " ++ string_of_nat total ++ " 张图片，开始上传...") ;;
  concurrentUpload_loop CONFIG env total (firstn n files) 0 [].

(** ** Reading a trace *)

(** The [content] arguments of the [createPage] requests, in order. *)
Fixpoint created_contents (t : Trace) : list (list Node) :=
  match t with
  | [] => []
  | ECreatePage _ _ content :: t' => content :: created_contents t'
  | _ :: t' => created_contents t'
  end.

(** The [content] arguments of the [editPage] requests, in order. *)
Fixpoint edited_contents (t : Trace) : list (list Node) :=
  match t with
  | [] => []
  | EEditPage _ _ _ content _ _ :: t' => content :: edited_contents t'
  | _ :: t' => edited_contents t'
  end.

(** Number of requests sent to the Telegraph API. *)
Fixpoint telegraph_calls (t : Trace) : nat :=
  match t with
  | [] => 0
  | ECreateAccount _ _ :: t' => S (telegraph_calls t')
  | ECreatePage _ _ _ :: t' => S (telegraph_calls t')
  | EEditPage _ _ _ _ _ _ :: t' => S (telegraph_calls t')
  | _ :: t' => telegraph_calls t'
  end.

(** The log lines of a level, in order. *)
Fixpoint logged (level : Level) (t : Trace) : list string :=
  match t with
  | [] => []
  | ELog l text :: t' =>
      match level, l with
      | INFO, INFO | ERROR, ERROR => text :: logged level t'
      | _, _ => logged level t'
      end
  | _ :: t' => logged level t'
  end.

(** Scans a trace with the number of upload requests that are sent and not
    yet settled, and the largest value this number has had. *)
Fixpoint in_flight_scan (current peak : nat) (t : Trace) : nat * nat :=
  match t with
  | [] => (current, peak)
  | EUploadRequest _ _ _ :: t' =>
      in_flight_scan (S current) (Nat.max peak (S current)) t'
  | EUploadSettled _ _ :: t' => in_flight_scan (Nat.pred current) peak t'
  | _ :: t' => in_flight_scan current peak t'
  end.

(** The largest number of uploads simultaneously in flight along a trace. *)
Definition peak_in_flight (t : Trace) : nat := snd (in_flight_scan 0 0 t).

(** The upload events of a trace, in order. *)
Fixpoint upload_events (t : Trace) : Trace :=
  match t with
  | [] => []
  | EUploadRequest u d f :: t' => EUploadRequest u d f :: upload_events t'
  | EUploadSettled f r :: t' => EUploadSettled f r :: upload_events t'
  | _ :: t' => upload_events t'
  end.

(** A trace in which no upload is in flight at the end and at most one
    has been in flight at any time. *)
Definition one_at_a_time (t : Trace) : Prop :=
  fst (in_flight_scan 0 0 t) = 0 /\ snd (in_flight_scan 0 0 t) <= 1.

(** A computation that sends no upload request and does not end the
    process. *)
Definition calm {A} (m : M A) : Prop :=
  forall t,
    upload_calls (snd (m t)) = upload_calls t
    /\ forall c, fst (m t) <> Exit c.

(** ** Content nodes *)

(** A summary paragraph stating an image count. *)
Definition summary_paragraph (count : nat) : Node :=
  Element "p" None
    (Some [Text ("共上传 " ++ string_of_nat count ++ " 张图片")]).

(** The figure of an outcome: an image node whose [src] is the outcome's
    URL, then a caption node whose text is the outcome's file name. *)
Definition figure_for (o : UploadOutcome) : Node :=
  Element "figure" None
    (Some [ Element "img" (Some (url o)) None;
            Element "figcaption" None (Some [Text (filename o)]) ]).

(** ** Sample configuration and worlds *)

Definition sample_IMGS_CONFIG : ImgsConfig :=
  {| imgs_PAGE_URL := "album";
     imgs_TELEGRAPH_TITLE := "My album";
     imgs_IMAGE_DIR := "./images" |}.

Definition sample_CONFIG : Config := app_CONFIG sample_IMGS_CONFIG.

(** An image host that rejects the first [n] requests of the run and
    accepts the later ones. *)
Definition host_failing_first (n : nat) : nat -> string -> UploadResponse :=
  fun call file =>
    if call <? n then UploadFailed "socket hang up"
    else Uploaded ("/file/" ++ file).

(** An image host that rejects one file and accepts the others. *)
Definition host_rejecting (bad : string) : nat -> string -> UploadResponse :=
  fun call file =>
    if String.eqb file bad then UploadFailed "Request failed with status code 500"
    else Uploaded ("/file/" ++ file).

(** The extension of a lower-case file name that does not start with a dot:
    what follows its last dot, the dot included. *)
Fixpoint extension_from (s : string) (ext : option string) : string :=
  match s with
  | EmptyString => match ext with Some e => e | None => "" end
  | String c s' =>
      if Ascii.eqb c "."%char then extension_from s' (Some ".")
      else extension_from s' (option_map (fun e => e ++ String c "") ext)
  end.

(** A world with the given image host, directory listing and JSON file, in
    which every Telegraph call succeeds. *)
Definition sample_env (host : nat -> string -> UploadResponse)
    (dir : option (list string)) (json : option ParseResult) : Env :=
  {| image_host := host;
     telegraph_createAccount := ApiOk "token-1";
     telegraph_createPage := fun _ _ _ => ApiOk "https://telegra.ph/album-2024-01-01";
     telegraph_editPage := fun _ path _ _ => ApiOk ("https://telegra.ph/" ++ path);
     image_dir := dir;
     extname_lower := fun file => extension_from file None;
     result_json := json;
     path_resolve := fun p => "/work/" ++ p;
     current_year := 2024 |}.

(** The two successful outcomes of the specification's example. *)
Definition two_successes : list UploadOutcome :=
  [ {| filename := "a.png"; url := Some "https://host/a";
       status := "success"; error := None; retries := 0 |};
    {| filename := "b.jpg"; url := Some "https://host/b";
       status := "success"; error := None; retries := 0 |} ].

(** A world in which the JSON file exists and holds [stored]. *)
Definition resumed_env (stored : list ResultItem) : Env :=
  sample_env (host_failing_first 0) None (Some (Parsed (VArray stored))).

(** ** Further readings of a trace *)

(** Number of retry delays waited. *)
Fixpoint sleep_count (t : Trace) : nat :=
  match t with
  | [] => 0
  | ESleep _ :: t' => S (sleep_count t')
  | _ :: t' => sleep_count t'
  end.

(** The progress lines, as pairs (done, total), in order. *)
Fixpoint progress_of (t : Trace) : list (nat * nat) :=
  match t with
  | [] => []
  | EProgress done total :: t' => (done, total) :: progress_of t'
  | _ :: t' => progress_of t'
  end.

(** The text files written, as pairs (path, text), in order. *)
Fixpoint files_written (t : Trace) : list (string * string) :=
  match t with
  | [] => []
  | EWriteFile path text :: t' => (path, text) :: files_written t'
  | _ :: t' => files_written t'
  end.

(** The result arrays written, as pairs (path, array), in order. *)
Fixpoint results_written (t : Trace) : list (string * list ResultItem) :=
  match t with
  | [] => []
  | EWriteResults path results :: t' => (path, results) :: results_written t'
  | _ :: t' => results_written t'
  end.

(** The paths of the [editPage] requests, in order. *)
Fixpoint edited_paths (t : Trace) : list string :=
  match t with
  | [] => []
  | EEditPage _ path _ _ _ _ :: t' => path :: edited_paths t'
  | _ :: t' => edited_paths t'
  end.

(** A computation that only appends events, all of them satisfying [P]. *)
Definition appends_only (P : Event -> Prop) {A} (m : M A) : Prop :=
  forall t, exists new, snd (m t) = (t ++ new)%list /\ Forall P new.

(** The events one call of [uploadFile] for [file] may leave: log lines,
    requests for that file to the configured endpoint and directory, their
    settlements, and delays of [RETRY_DELAY]. *)
Definition upload_event_of (CONFIG : Config) (file : string) (e : Event)
  : Prop :=
  match e with
  | ELog _ _ => True
  | EUploadRequest endpoint dir f =>
      endpoint = BASE_URL CONFIG ++ "/upload" /\ dir = IMAGE_DIR CONFIG
      /\ f = file
  | EUploadSettled f _ => f = file
  | ESleep ms => ms = RETRY_DELAY CONFIG
  | _ => False
  end.

(** The events [concurrentUpload files] may leave: log and progress lines,
    delays of [RETRY_DELAY], and requests, with their settlements, for one
    of the files to the configured endpoint and directory. *)
Definition pipeline_event (CONFIG : Config) (files : list string) (e : Event)
  : Prop :=
  match e with
  | ELog _ _ | EProgress _ _ => True
  | EUploadRequest endpoint dir f =>
      endpoint = BASE_URL CONFIG ++ "/upload" /\ dir = IMAGE_DIR CONFIG
      /\ In f files
  | EUploadSettled f _ => In f files
  | ESleep ms => ms = RETRY_DELAY CONFIG
  | _ => False
  end.

(** The test of [getImageFiles] on a directory entry. *)
Definition allowed_file (CONFIG : Config) (env : Env) (file : string) : bool :=
  existsb (String.eqb (extname_lower env file)) (ALLOWED_EXT CONFIG).

(** The test of the [filter] of [main] on an outcome object. *)
Definition is_success (o : UploadOutcome) : bool :=
  String.eqb (status o) "success".

(** Whether a string holds a slash. *)
Fixpoint has_slash (s : string) : bool :=
  match s with
  | EmptyString => false
  | String c s' => Ascii.eqb c "/"%char || has_slash s'
  end.


(** * Properties *)

(** From here on [++] appends lists; strings are appended with [%string]. *)
Open Scope list_scope.

(** ** Traces *)

(** Unfolds one step of a computation of [M]. *)
Ltac step_M :=
  unfold bind, ret, throw, process_exit, try_catch, writeLog, sleep, emit,
    axios_post_upload; simpl.

Lemma upload_calls_app (t1 t2 : Trace) :
  upload_calls (t1 ++ t2) = upload_calls t1 + upload_calls t2.
Proof.
  induction t1 as [|e t1 IH]; simpl; [reflexivity|].
  destruct e; simpl; rewrite IH; reflexivity.
Qed.

Section UploadFile.

Variable CONFIG : Config.
Variable env : Env.

Local Abbreviation R := (RETRY_TIMES CONFIG).

(** The loop returns an outcome whenever the fuel covers the retries left:
    neither the fuel nor the loop condition ends it. *)
Lemma uploadFile_loop_returns (file : string) (index total : nat) :
  forall fuel retryCount t,
    retryCount <= R -> R - retryCount < fuel ->
    exists o t',
      uploadFile_loop CONFIG env fuel file index total retryCount t
      = (Ret (Outcome o), t')
      /\ settled_from CONFIG file retryCount o.
Proof.
  induction fuel as [|fuel IH]; intros rc t Hle Hfuel; [lia|].
  simpl. apply Nat.leb_le in Hle as Hguard. rewrite Hguard.
  step_M.
  destruct (image_host env _ file) as [src|msg].
  - eexists _, _. split; [reflexivity|].
    left. exists src, rc. split; [lia|reflexivity].
  - destruct (rc =? R) eqn:Hlast.
    + apply Nat.eqb_eq in Hlast. subst rc.
      eexists _, _. split; [reflexivity|].
      right. exists msg. reflexivity.
    + apply Nat.eqb_neq in Hlast.
      destruct (IH (S rc)
                  (((t ++ [ELog INFO (upload_log_line file index total rc)])
                    ++ [EUploadRequest (BASE_URL CONFIG ++ "/upload")%string
                          (IMAGE_DIR CONFIG) file;
                        EUploadSettled file (UploadFailed msg)])
                   ++ [ESleep (RETRY_DELAY CONFIG)]))
        as (o & t' & Hrun & Hset); [lia|lia|].
      exists o, t'. split; [exact Hrun|].
      destruct Hset as [(src & k & Hk & ->)|(m & ->)].
      * left. exists src, k. split; [lia|reflexivity].
      * right. exists m. reflexivity.
Qed.

Lemma uploadFile_returns (file : string) (index total : nat) (t : Trace) :
  exists o t',
    uploadFile CONFIG env file index total t = (Ret (Outcome o), t')
    /\ settled_from CONFIG file 0 o.
Proof.
  unfold uploadFile. apply uploadFile_loop_returns; lia.
Qed.

(** [n] failed attempts bring the loop from [retryCount] to
    [retryCount + n], having sent [n] requests. *)
Lemma uploadFile_loop_failures (file : string) (index total : nat) :
  forall n fuel retryCount t,
    retryCount + n <= R ->
    (forall k, k < n ->
       exists msg, image_host env (upload_calls t + k) file = UploadFailed msg) ->
    exists t',
      upload_calls t' = upload_calls t + n
      /\ uploadFile_loop CONFIG env (n + fuel) file index total retryCount t
         = uploadFile_loop CONFIG env fuel file index total (retryCount + n) t'.
Proof.
  induction n as [|n IH]; intros fuel rc t Hle Hfail.
  - exists t. rewrite !Nat.add_0_r. split; reflexivity.
  - simpl. assert (Hguard : (rc <=? R) = true) by (apply Nat.leb_le; lia).
    rewrite Hguard. step_M.
    rewrite upload_calls_app, Nat.add_0_r.
    destruct (Hfail 0) as [msg Hmsg]; [lia|].
    rewrite Nat.add_0_r in Hmsg. rewrite Hmsg.
    assert (Hlast : (rc =? R) = false) by (apply Nat.eqb_neq; lia).
    rewrite Hlast.
    match goal with
    | |- context [uploadFile_loop _ _ _ _ _ _ _ ?t1] =>
        destruct (IH fuel (S rc) t1) as (t' & Hcalls & Hrun)
    end.
    + lia.
    + intros k Hk. destruct (Hfail (S k)) as [m Hm]; [lia|].
      exists m. rewrite <- Hm. f_equal.
      rewrite !upload_calls_app. simpl. lia.
    + exists t'. split.
      * rewrite Hcalls, !upload_calls_app. simpl. lia.
      * rewrite Hrun. f_equal. lia.
Qed.

(** The attempt made at [retryCount = RETRY_TIMES] settles the task. *)
Lemma uploadFile_loop_last (file : string) (index total : nat)
    (fuel : nat) (t : Trace) :
  exists t',
    uploadFile_loop CONFIG env (S fuel) file index total R t
    = (Ret (Outcome
              match image_host env (upload_calls t) file with
              | Uploaded src => success_outcome CONFIG file src R
              | UploadFailed msg => error_outcome CONFIG file msg R
              end), t').
Proof.
  simpl. rewrite Nat.leb_refl. step_M.
  rewrite upload_calls_app, Nat.add_0_r.
  destruct (image_host env (upload_calls t) file) as [src|msg].
  - eexists. reflexivity.
  - rewrite Nat.eqb_refl. eexists. reflexivity.
Qed.

(** [RETRY_TIMES] failures, then whatever the next answer is. *)
Lemma uploadFile_after_failures (file : string) (index total : nat)
    (t : Trace) :
  (forall k, k < R ->
     exists msg, image_host env (upload_calls t + k) file = UploadFailed msg) ->
  exists t',
    uploadFile CONFIG env file index total t
    = (Ret (Outcome
              match image_host env (upload_calls t + R) file with
              | Uploaded src => success_outcome CONFIG file src R
              | UploadFailed msg => error_outcome CONFIG file msg R
              end), t').
Proof.
  intros Hfail. unfold uploadFile.
  destruct (uploadFile_loop_failures file index total R 2 0 t)
    as (t1 & Hcalls & Hrun); [lia|exact Hfail|].
  rewrite Nat.add_0_l in Hrun.
  replace (S (S R)) with (R + 2) by lia. rewrite Hrun.
  destruct (uploadFile_loop_last file index total 1 t1) as [t' Hlast].
  exists t'. rewrite Hlast, Hcalls. reflexivity.
Qed.

End UploadFile.

(** ** [concurrentUpload] *)

Section ConcurrentUpload.

Variable CONFIG : Config.
Variable env : Env.

(** Every round of the loop pushes one outcome, for the file of that round. *)
Lemma concurrentUpload_loop_returns (total : nat) :
  forall rest i results t,
    exists outs t',
      concurrentUpload_loop CONFIG env total rest i results t
      = (Ret (results ++ map Outcome outs), t')
      /\ map filename outs = rest
      /\ Forall (fun o => settled_from CONFIG (filename o) 0 o) outs.
Proof.
  induction rest as [|file rest IH]; intros i results t.
  - exists [], t. simpl. rewrite app_nil_r. repeat split. constructor.
  - simpl. unfold bind at 1.
    destruct (uploadFile_returns CONFIG env file i total t)
      as (o & t1 & Hrun & Hset).
    rewrite Hrun. step_M.
    destruct (IH (S i) (results ++ [Outcome o]) (t1 ++ [EProgress (i + 1) total]))
      as (outs & t' & Hloop & Hnames & Hall).
    exists (o :: outs), t'. rewrite Hloop, <- app_assoc. simpl.
    assert (Hname : filename o = file).
    { destruct Hset as [(src & k & _ & ->)|(msg & ->)]; reflexivity. }
    repeat split.
    + rewrite Hname, Hnames. reflexivity.
    + constructor; [rewrite Hname; exact Hset|exact Hall].
Qed.

(** The loop over [pre ++ rest] is the loop over [pre] followed by the loop
    over [rest]. *)
Lemma concurrentUpload_loop_app (total : nat) (rest : list string) :
  forall pre i results t res1 t1,
    concurrentUpload_loop CONFIG env total pre i results t = (Ret res1, t1) ->
    concurrentUpload_loop CONFIG env total (pre ++ rest) i results t
    = concurrentUpload_loop CONFIG env total rest (i + length pre) res1 t1.
Proof.
  induction pre as [|file pre IH]; intros i results t res1 t1 Hpre.
  - simpl in *. unfold ret in Hpre. inversion Hpre; subst.
    rewrite Nat.add_0_r. reflexivity.
  - simpl in *. unfold bind at 1. unfold bind at 1 in Hpre.
    destruct (uploadFile CONFIG env file i total t) as [[item|e|c] t2];
      try discriminate.
    unfold bind at 1. unfold bind at 1 in Hpre.
    destruct (emit (EProgress (i + 1) total) t2) as [[[]|e|c] t3];
      try discriminate.
    rewrite (IH _ _ _ _ _ Hpre). f_equal. lia.
Qed.

End ConcurrentUpload.

(** ** The upload pipeline: one outcome per task, retries, absorbed failures *)

(** C1. For every ordered list of N files, [concurrentUpload] returns
    normally with an array of exactly N outcome objects, and the i-th
    outcome carries the name of the i-th file: the input order is kept. *)
Theorem C1_one_outcome_per_task_in_order (CONFIG : Config) (env : Env)
    (files : list string) (t : Trace) :
  exists outs t',
    concurrentUpload CONFIG env files t = (Ret (map Outcome outs), t')
    /\ length outs = length files
    /\ forall i, option_map filename (nth_error outs i) = nth_error files i.
Proof.
  unfold concurrentUpload. step_M.
  destruct (concurrentUpload_loop_returns CONFIG env (length files) files 0 []
              (t ++ [ELog INFO
                       ("发现 " ++ string_of_nat (length files)
                        ++ " 张图片，开始上传...")%string]))
    as (outs & t' & Hloop & Hnames & _).
  exists outs, t'. simpl in Hloop. repeat split.
  - exact Hloop.
  - rewrite <- Hnames, length_map. reflexivity.
  - intros i. rewrite <- Hnames, nth_error_map. reflexivity.
Qed.

(** C4. A task whose upload fails exactly [RETRY_TIMES] times and succeeds
    at the next attempt settles as a success whose [retries] is
    [RETRY_TIMES].  The attempts of the task are the requests numbered
    from [upload_calls t] on. *)
Theorem C4_success_on_last_attempt (CONFIG : Config) (env : Env)
    (file : string) (index total : nat) (t : Trace) (src : string) :
  (forall k, k < RETRY_TIMES CONFIG ->
     exists msg, image_host env (upload_calls t + k) file = UploadFailed msg) ->
  image_host env (upload_calls t + RETRY_TIMES CONFIG) file = Uploaded src ->
  exists o t',
    uploadFile CONFIG env file index total t = (Ret (Outcome o), t')
    /\ status o = "success"%string
    /\ retries o = RETRY_TIMES CONFIG
    /\ filename o = file
    /\ url o = Some (BASE_URL CONFIG ++ src)%string.
Proof.
  intros Hfail Hok.
  destruct (uploadFile_after_failures CONFIG env file index total t Hfail)
    as [t' Hrun].
  rewrite Hok in Hrun.
  exists (success_outcome CONFIG file src (RETRY_TIMES CONFIG)), t'.
  repeat split. exact Hrun.
Qed.

(** The run of C4 on the shipped configuration: ten rejected requests, the
    eleventh accepted. *)
Lemma C4_witness :
  exists o t',
    uploadFile sample_CONFIG
      (sample_env (host_failing_first 10) (Some ["a.png"%string]) None)
      "a.png" 0 1 [] = (Ret (Outcome o), t')
    /\ status o = "success"%string
    /\ retries o = 10
    /\ filename o = "a.png"%string
    /\ url o = Some "https://im.gurl.eu.org/file/a.png"%string.
Proof.
  apply (C4_success_on_last_attempt sample_CONFIG
           (sample_env (host_failing_first 10) (Some ["a.png"%string]) None)
           "a.png" 0 1 [] "/file/a.png").
  - intros k Hk. exists "socket hang up"%string. simpl.
    unfold host_failing_first.
    apply Nat.ltb_lt in Hk. simpl in Hk. rewrite Hk. reflexivity.
  - reflexivity.
Defined.

(** C10. Every outcome [uploadFile] produces is a success or an error; it
    is a success exactly when its [url] is not [null]; an error carries an
    [error] message and [retries] equal to [RETRY_TIMES]; a success has
    [retries] between 0 and [RETRY_TIMES].  [uploadFile] always produces
    such an outcome. *)
Theorem C10_outcome_invariant (CONFIG : Config) (env : Env)
    (file : string) (index total : nat) (t : Trace) :
  exists o t',
    uploadFile CONFIG env file index total t = (Ret (Outcome o), t')
    /\ (status o = "success"%string \/ status o = "error"%string)
    /\ (status o = "success"%string <-> url o <> None)
    /\ (status o = "error"%string ->
        error o <> None /\ retries o = RETRY_TIMES CONFIG)
    /\ (status o = "success"%string ->
        0 <= retries o <= RETRY_TIMES CONFIG).
Proof.
  destruct (uploadFile_returns CONFIG env file index total t)
    as (o & t' & Hrun & Hset).
  exists o, t'. split; [exact Hrun|].
  destruct Hset as [(src & k & Hk & ->)|(msg & ->)]; simpl.
  - repeat split; try (intros; discriminate); try lia.
    left. reflexivity.
  - repeat split; try (intros; discriminate); try lia.
    + right. reflexivity.
    + intros H. exfalso. apply H. reflexivity.
Qed.

(** C5. A task whose upload fails [RETRY_TIMES + 1] times settles as an
    error outcome whose [retries] is [RETRY_TIMES] and whose [error] is the
    message of the last failure.  Nothing is thrown: [concurrentUpload]
    returns normally with all N outcomes, those of the tasks before and
    after the failed one included.  The attempts of task [n] are the
    requests numbered from the count reached when its round starts. *)
Theorem C5_exhausted_task_is_absorbed (CONFIG : Config) (env : Env)
    (files : list string) (n : nat) (file : string) (t : Trace)
    (msg : string) :
  nth_error files n = Some file ->
  (forall k, k < RETRY_TIMES CONFIG ->
     exists m,
       image_host env
         (upload_calls (snd (concurrentUpload_upto CONFIG env files n t)) + k)
         file = UploadFailed m) ->
  image_host env
    (upload_calls (snd (concurrentUpload_upto CONFIG env files n t))
     + RETRY_TIMES CONFIG) file = UploadFailed msg ->
  exists outs t',
    concurrentUpload CONFIG env files t = (Ret (map Outcome outs), t')
    /\ length outs = length files
    /\ map filename outs = files
    /\ nth_error outs n
       = Some {| filename := file; url := None; status := "error";
                 error := Some msg; retries := RETRY_TIMES CONFIG |}.
Proof.
  intros Hnth Hfail Hlast.
  destruct (nth_error_split files n Hnth) as (pre & post & Hfiles & Hlen).
  assert (Hpre : firstn n files = pre).
  { rewrite Hfiles, <- Hlen, firstn_app, Nat.sub_diag, firstn_all. simpl.
    apply app_nil_r. }
  unfold concurrentUpload_upto in Hfail, Hlast. rewrite Hpre in Hfail, Hlast.
  unfold concurrentUpload. revert Hfail Hlast. step_M.
  set (total := length files).
  set (t0 := t ++ [ELog INFO _]).
  destruct (concurrentUpload_loop_returns CONFIG env total pre 0 [] t0)
    as (outs1 & t1 & Hrun1 & Hnames1 & _).
  simpl in Hrun1. rewrite Hrun1. simpl. intros Hfail Hlast.
  replace (concurrentUpload_loop CONFIG env total files 0 [] t0)
    with (concurrentUpload_loop CONFIG env total (pre ++ file :: post) 0 [] t0)
    by (rewrite <- Hfiles; reflexivity).
  rewrite (concurrentUpload_loop_app CONFIG env total (file :: post) pre 0 []
             t0 _ _ Hrun1).
  simpl. unfold bind at 1.
  destruct (uploadFile_after_failures CONFIG env file (length pre) total t1 Hfail)
    as [t2 Hrun2].
  rewrite Hlast in Hrun2. rewrite Hrun2. step_M.
  match goal with
  | |- context [concurrentUpload_loop _ _ _ post ?i ?res ?tr] =>
      destruct (concurrentUpload_loop_returns CONFIG env total post i res tr)
        as (outs2 & t' & Hrun3 & Hnames2 & _)
  end.
  exists (outs1 ++ error_outcome CONFIG file msg (RETRY_TIMES CONFIG) :: outs2), t'.
  rewrite Hrun3. repeat split.
  - rewrite map_app, <- app_assoc. reflexivity.
  - subst total. rewrite Hfiles, !length_app. simpl.
    rewrite <- Hnames1, <- Hnames2, !length_map. reflexivity.
  - rewrite map_app. simpl. rewrite Hnames1, Hnames2, Hfiles. reflexivity.
  - rewrite nth_error_app2; rewrite <- Hlen, <- Hnames1, length_map; [|lia].
    rewrite Nat.sub_diag. reflexivity.
Qed.

(** The run of C5 on the shipped configuration: of three files the second
    is rejected at each of its eleven attempts; its neighbours succeed. *)
Lemma C5_witness :
  exists outs t',
    concurrentUpload sample_CONFIG
      (sample_env (host_rejecting "b.png") None None)
      ["a.png"; "b.png"; "c.png"]%string [] = (Ret (map Outcome outs), t')
    /\ length outs = 3
    /\ map filename outs = ["a.png"; "b.png"; "c.png"]%string
    /\ nth_error outs 1
       = Some {| filename := "b.png"; url := None; status := "error";
                 error := Some "Request failed with status code 500"%string;
                 retries := 10 |}.
Proof.
  apply (C5_exhausted_task_is_absorbed sample_CONFIG
           (sample_env (host_rejecting "b.png") None None)
           ["a.png"; "b.png"; "c.png"]%string 1 "b.png" []
           "Request failed with status code 500").
  - reflexivity.
  - intros k Hk. exists "Request failed with status code 500"%string.
    reflexivity.
  - reflexivity.
Defined.

(** ** Computations that upload nothing *)

Lemma calm_ret {A} (a : A) : calm (ret a).
Proof. intros t. split; [reflexivity|discriminate]. Qed.

Lemma calm_throw {A} (e : Exn) : calm (@throw A e).
Proof. intros t. split; [reflexivity|discriminate]. Qed.

Lemma calm_bind {A B} (m : M A) (k : A -> M B) :
  calm m -> (forall a, calm (k a)) -> calm (bind m k).
Proof.
  intros Hm Hk t. unfold bind. specialize (Hm t).
  destruct (m t) as [[a|e|c] t1]; simpl in Hm.
  - destruct (Hk a t1) as [Hcalls Hexit]. split.
    + rewrite Hcalls. apply Hm.
    + exact Hexit.
  - split; [apply Hm|discriminate].
  - exfalso. apply (proj2 Hm c). reflexivity.
Qed.

Lemma calm_try_catch {A} (m : M A) (handler : Exn -> M A) :
  calm m -> (forall e, calm (handler e)) -> calm (try_catch m handler).
Proof.
  intros Hm Hh t. unfold try_catch. specialize (Hm t).
  destruct (m t) as [[a|e|c] t1]; simpl in Hm.
  - split; [apply Hm|discriminate].
  - destruct (Hh e t1) as [Hcalls Hexit]. split.
    + rewrite Hcalls. apply Hm.
    + exact Hexit.
  - exfalso. apply (proj2 Hm c). reflexivity.
Qed.

Lemma calm_emit (e : Event) :
  upload_calls [e] = 0 -> calm (emit e).
Proof.
  intros He t. unfold emit. simpl. split; [|discriminate].
  rewrite upload_calls_app, He. lia.
Qed.

Lemma calm_writeLog (level : Level) (text : string) :
  calm (writeLog level text).
Proof. apply calm_emit. reflexivity. Qed.

Ltac calm_steps :=
  repeat first
    [ apply calm_ret | apply calm_throw | apply calm_writeLog
    | apply calm_emit; reflexivity
    | apply calm_try_catch; [|intros ?]
    | apply calm_bind; [|intros ?] ].

Section Assembly.

Variable CONFIG : Config.
Variable env : Env.

Lemma calm_filter_success (items : list ResultItem) :
  calm (filter_success items).
Proof.
  induction items as [|[item| |] items IH]; simpl; calm_steps. exact IH.
Qed.

Lemma calm_main_successResults (results : ResultsValue) :
  calm (main_successResults results).
Proof.
  destruct results; simpl; calm_steps. apply calm_filter_success.
Qed.

Lemma calm_createTelegraphAccount : calm (createTelegraphAccount CONFIG env).
Proof.
  unfold createTelegraphAccount. calm_steps.
  destruct (telegraph_createAccount env); calm_steps.
Qed.

Lemma calm_createTelegraphPage (accessToken : string)
    (images : list UploadOutcome) :
  calm (createTelegraphPage CONFIG env accessToken images).
Proof.
  unfold createTelegraphPage. calm_steps.
  destruct (telegraph_createPage env _ _ _); calm_steps.
Qed.

Lemma calm_editTelegraphPage (accessToken path newTitle : string)
    (content : list Node) :
  calm (editTelegraphPage CONFIG env accessToken path newTitle content).
Proof.
  unfold editTelegraphPage. calm_steps.
  destruct (telegraph_editPage env _ _ _ _); calm_steps.
Qed.

Lemma calm_main_assemble (successResults : list UploadOutcome) :
  calm (main_assemble CONFIG env successResults).
Proof.
  unfold main_assemble. destruct (0 <? length successResults).
  - apply calm_bind; [apply calm_createTelegraphAccount|intros ?].
    apply calm_bind; [apply calm_writeLog|intros ?].
    apply calm_bind; [apply calm_createTelegraphPage|intros ?].
    apply calm_bind; [apply calm_editTelegraphPage|intros ?].
    calm_steps.
  - apply calm_ret.
Qed.

Lemma calm_main_report (successResults : list UploadOutcome)
    (imageFiles : option (list string)) :
  calm (main_report CONFIG env successResults imageFiles).
Proof.
  unfold main_report. destruct imageFiles; calm_steps.
Qed.

End Assembly.

(** ** Resuming from the JSON file *)

Section Resume.

Variable CONFIG : Config.
Variable env : Env.

(** The body of the [try] block of [main]. *)
Lemma main_unfold (t : Trace) :
  main CONFIG env t
  = try_catch
      ('(results, imageFiles) <- main_load CONFIG env ;;
       successResults <- main_successResults results ;;
       main_assemble CONFIG env successResults ;;
       main_report CONFIG env successResults imageFiles)
      (fun error =>
         writeLog ERROR ("程序运行出错: " ++ message error)%string ;;
         process_exit 1)
      (t ++ [ELog INFO "程序启动"%string]).
Proof. reflexivity. Qed.

(** With the JSON file present [main_load] only reads it. *)
Lemma main_load_resumed (p : ParseResult) (t : Trace) :
  result_json env = Some p ->
  main_load CONFIG env t
  = match p with
    | Parsed results => (Ret (results, None), t)
    | ParseError msg => (Throw (SyntaxError msg), t)
    end.
Proof.
  intros Hjson. unfold main_load. rewrite Hjson. destruct p; reflexivity.
Qed.

(** The stages of a resumed run after [main_load], up to the report. *)
Lemma calm_resumed_stages (results : ResultsValue) :
  calm (successResults <- main_successResults results ;;
        main_assemble CONFIG env successResults ;;
        main_report CONFIG env successResults None).
Proof.
  apply calm_bind; [apply calm_main_successResults|intros succ].
  apply calm_bind; [apply calm_main_assemble|intros _].
  apply calm_main_report.
Qed.

End Resume.

(** C2. When the JSON file of the run exists and holds an outcome list,
    [main] takes that list as its [results], unchanged, without scanning
    the directory, and the whole run sends no upload request, whatever the
    outcomes in the list are. *)
Theorem C2_resumed_run_uploads_nothing (CONFIG : Config) (env : Env)
    (stored : list ResultItem) (t : Trace) :
  result_json env = Some (Parsed (VArray stored)) ->
  (forall t0, main_load CONFIG env t0 = (Ret (VArray stored, None), t0))
  /\ upload_calls (snd (main CONFIG env t)) = upload_calls t.
Proof.
  intros Hjson. split.
  - intros t0. apply (main_load_resumed CONFIG env _ t0 Hjson).
  - rewrite main_unfold. unfold try_catch, bind at 1.
    rewrite (main_load_resumed CONFIG env _ _ Hjson).
    set (t0 := t ++ [ELog INFO "程序启动"%string]).
    assert (Ht0 : upload_calls t0 = upload_calls t).
    { unfold t0. rewrite upload_calls_app. simpl. lia. }
    destruct (calm_resumed_stages CONFIG env (VArray stored) t0)
      as [Hcalls _].
    destruct ((successResults <- main_successResults (VArray stored) ;;
               main_assemble CONFIG env successResults ;;
               main_report CONFIG env successResults None) t0)
      as [[[]|e|c] t1]; simpl in Hcalls |- *; try congruence.
    step_M. rewrite upload_calls_app. simpl. lia.
Qed.

(** The run of C2 on a stored list whose only outcome is an error. *)
Lemma C2_witness :
  (forall t0,
     main_load sample_CONFIG
       (sample_env (host_failing_first 0) None
          (Some (Parsed (VArray
             [Outcome (error_outcome sample_CONFIG "a.png" "timeout" 10)]))))
       t0
     = (Ret (VArray [Outcome (error_outcome sample_CONFIG "a.png" "timeout" 10)],
             None), t0))
  /\ upload_calls
       (snd (main sample_CONFIG
               (sample_env (host_failing_first 0) None
                  (Some (Parsed (VArray
                     [Outcome (error_outcome sample_CONFIG "a.png" "timeout" 10)]))))
               [])) = upload_calls [].
Proof.
  apply (C2_resumed_run_uploads_nothing sample_CONFIG
           (sample_env (host_failing_first 0) None
              (Some (Parsed (VArray
                 [Outcome (error_outcome sample_CONFIG "a.png" "timeout" 10)]))))
           [Outcome (error_outcome sample_CONFIG "a.png" "timeout" 10)] []).
  reflexivity.
Defined.

(** C9. In every run that finds the JSON file, [imageFiles] is still
    [null] after the loading stage; the report stage, which reads
    [imageFiles.length], then throws a [TypeError]; and the run ends in the
    [catch] of [main], which logs an error and exits with status 1.  When
    every stage before the report has succeeded, the logged error is that
    [TypeError]. *)
Theorem C9_resumed_run_exits_with_error (CONFIG : Config) (env : Env)
    (p : ParseResult) (t : Trace) :
  result_json env = Some p ->
  (forall t0 results imageFiles t1,
     main_load CONFIG env t0 = (Ret (results, imageFiles), t1) ->
     imageFiles = None)
  /\ (forall successResults t0,
        main_report CONFIG env successResults None t0
        = (Throw (TypeError null_length_message), t0))
  /\ (exists msg t',
        main CONFIG env t
        = (Exit 1, t' ++ [ELog ERROR ("程序运行出错: " ++ msg)%string]))
  /\ (forall results successResults t1 t2 t3,
        main_load CONFIG env (t ++ [ELog INFO "程序启动"%string])
        = (Ret (results, None), t1) ->
        main_successResults results t1 = (Ret successResults, t2) ->
        main_assemble CONFIG env successResults t2 = (Ret tt, t3) ->
        main CONFIG env t
        = (Exit 1,
           t3 ++ [ELog ERROR
                    ("程序运行出错: " ++ null_length_message)%string])).
Proof.
  intros Hjson. repeat split.
  - intros t0 results imageFiles t1 Hload.
    rewrite (main_load_resumed CONFIG env _ t0 Hjson) in Hload.
    destruct p; inversion Hload. reflexivity.
  - rewrite main_unfold. unfold try_catch, bind at 1.
    rewrite (main_load_resumed CONFIG env _ _ Hjson).
    set (t0 := t ++ [ELog INFO "程序启动"%string]).
    destruct p as [results|msg].
    + unfold bind at 1.
      destruct (calm_main_successResults results t0) as [_ Hexit1].
      destruct (main_successResults results t0) as [[succ|e|c] t1];
        simpl in Hexit1.
      * unfold bind at 1.
        destruct (calm_main_assemble CONFIG env succ t1) as [_ Hexit2].
        destruct (main_assemble CONFIG env succ t1) as [[[]|e|c] t2];
          simpl in Hexit2.
        -- exists null_length_message, t2. reflexivity.
        -- exists (message e), t2. reflexivity.
        -- exfalso. apply (Hexit2 c). reflexivity.
      * exists (message e), t1. reflexivity.
      * exfalso. apply (Hexit1 c). reflexivity.
    + exists msg, t0. reflexivity.
  - intros results successResults t1 t2 t3 Hload Hsucc Hasm.
    rewrite main_unfold. unfold try_catch, bind at 1. rewrite Hload.
    unfold bind at 1. rewrite Hsucc. unfold bind at 1. rewrite Hasm.
    reflexivity.
Qed.

(** The run of C9 on a stored list with one success, every Telegraph call
    succeeding. *)
Lemma C9_witness :
  exists msg t',
    main sample_CONFIG
      (sample_env (host_failing_first 0) None
         (Some (Parsed (VArray
            [Outcome (success_outcome sample_CONFIG "a.png" "/file/a.png" 0)]))))
      []
    = (Exit 1, t' ++ [ELog ERROR ("程序运行出错: " ++ msg)%string]).
Proof.
  exact (proj1 (proj2 (proj2
    (C9_resumed_run_exits_with_error sample_CONFIG
       (sample_env (host_failing_first 0) None
          (Some (Parsed (VArray
             [Outcome (success_outcome sample_CONFIG "a.png" "/file/a.png" 0)]))))
       (Parsed (VArray
          [Outcome (success_outcome sample_CONFIG "a.png" "/file/a.png" 0)]))
       [] eq_refl)))).
Defined.

(** ** Document assembly *)

Lemma created_contents_app (t1 t2 : Trace) :
  created_contents (t1 ++ t2) = created_contents t1 ++ created_contents t2.
Proof.
  induction t1 as [|e t1 IH]; simpl; [reflexivity|].
  destruct e; simpl; rewrite ?IH; reflexivity.
Qed.

Lemma edited_contents_app (t1 t2 : Trace) :
  edited_contents (t1 ++ t2) = edited_contents t1 ++ edited_contents t2.
Proof.
  induction t1 as [|e t1 IH]; simpl; [reflexivity|].
  destruct e; simpl; rewrite ?IH; reflexivity.
Qed.

Lemma createTelegraphPage_content_figures (images : list UploadOutcome) :
  createTelegraphPage_content images
  = summary_paragraph (length images) :: map figure_for images.
Proof. reflexivity. Qed.

Lemma main_edit_content_figures (successResults : list UploadOutcome) :
  main_edit_content successResults = map figure_for successResults.
Proof. reflexivity. Qed.

(** C6. The content [createTelegraphPage] sends in its [createPage]
    request is one summary paragraph stating the number of images, followed
    by exactly one figure per outcome, in the order of the outcome list;
    each figure holds an image node whose [src] is the outcome's URL and a
    caption node whose text is the outcome's file name.  This holds for
    every outcome list, the non-empty ones in particular. *)
Theorem C6_create_content_shape (CONFIG : Config) (env : Env)
    (accessToken : string) (images : list UploadOutcome) (t : Trace) :
  exists title summary figures rest,
    snd (createTelegraphPage CONFIG env accessToken images t)
    = t ++ ECreatePage accessToken title (summary :: figures) :: rest
    /\ created_contents rest = []
    /\ summary
       = Element "p" None
           (Some [Text ("共上传 " ++ string_of_nat (length images)
                        ++ " 张图片")%string])
    /\ length figures = length images
    /\ forall i,
         nth_error figures i
         = option_map
             (fun o =>
                Element "figure" None
                  (Some [ Element "img" (Some (url o)) None;
                          Element "figcaption" None
                                  (Some [Text (filename o)]) ]))
             (nth_error images i).
Proof.
  exists (PAGE_URL CONFIG ++ "-" ++ string_of_nat (current_year env))%string,
    (summary_paragraph (length images)), (map figure_for images).
  unfold createTelegraphPage. step_M.
  rewrite createTelegraphPage_content_figures.
  destruct (telegraph_createPage env _ _ _) as [page_url|msg]; simpl;
    eexists;
    (split; [etransitivity; [symmetry; apply app_assoc|reflexivity]|]);
    (split; [reflexivity|]); (split; [reflexivity|]);
    (split; [apply length_map|intros i; apply nth_error_map]).
Qed.

(** The example of the specification: two outcomes give the summary and
    two figures, in order. *)
Example createTelegraphPage_content_two :
  createTelegraphPage_content two_successes
  = [ Element "p" None (Some [Text "共上传 2 张图片"%string]);
      Element "figure" None
        (Some [ Element "img" (Some (Some "https://host/a"%string)) None;
                Element "figcaption" None (Some [Text "a.png"%string]) ]);
      Element "figure" None
        (Some [ Element "img" (Some (Some "https://host/b"%string)) None;
                Element "figcaption" None (Some [Text "b.jpg"%string]) ]) ].
Proof. reflexivity. Qed.

(** C7, as stated, fails: with the two outcomes of the specification's
    example the [createPage] request carries three nodes and the
    [editPage] request two. *)
Lemma C7_counterexample :
  exists content1 content2,
    created_contents
      (snd (main_assemble sample_CONFIG (resumed_env []) two_successes []))
    = [content1]
    /\ edited_contents
         (snd (main_assemble sample_CONFIG (resumed_env []) two_successes []))
       = [content2]
    /\ content1 <> content2.
Proof.
  exists (createTelegraphPage_content two_successes),
    (main_edit_content two_successes).
  repeat split. intros Heq. apply (f_equal (@length Node)) in Heq.
  discriminate Heq.
Qed.

(** C7, amended.  Whenever [main] edits the page, the content of the
    [editPage] request is the list of figures, one per successful outcome
    in order, computed again from the same outcome list; the content of the
    one [createPage] request before it is the summary paragraph followed by
    that same list. *)
Theorem C7_edit_content_is_the_figures (CONFIG : Config) (env : Env)
    (successResults : list UploadOutcome) (t : Trace) :
  exists new,
    snd (main_assemble CONFIG env successResults t) = t ++ new
    /\ (edited_contents new = []
        \/ (edited_contents new = [map figure_for successResults]
            /\ created_contents new
               = [summary_paragraph (length successResults)
                  :: map figure_for successResults])).
Proof.
  unfold main_assemble. destruct (0 <? length successResults).
  - unfold createTelegraphAccount, createTelegraphPage, editTelegraphPage.
    step_M.
    destruct (telegraph_createAccount env) as [token|msg]; simpl;
      [|eexists; rewrite <- !app_assoc; split; [reflexivity|left; reflexivity]].
    destruct (telegraph_createPage env _ _ _) as [page_url|msg]; simpl;
      [|eexists; rewrite <- !app_assoc; split; [reflexivity|left; reflexivity]].
    destruct (telegraph_editPage env _ _ _ _) as [final_url|msg]; simpl;
      eexists; rewrite <- !app_assoc; (split; [reflexivity|]);
      right; split; reflexivity.
  - exists []. rewrite app_nil_r. split; [reflexivity|left; reflexivity].
Qed.

(** ** Runs without a successful upload *)

(** With no successful outcome the assembly stage does nothing. *)
Lemma main_assemble_skipped (CONFIG : Config) (env : Env) (t : Trace) :
  main_assemble CONFIG env [] t = (Ret tt, t).
Proof. reflexivity. Qed.

(** A fresh run in which the only file is rejected eleven times reports
    its totals and ends normally, without any Telegraph call. *)
Example fresh_run_without_success :
  let run :=
    main sample_CONFIG
      (sample_env (host_rejecting "a.png") (Some ["a.png"%string]) None) [] in
  fst run = Ret tt
  /\ telegraph_calls (snd run) = 0
  /\ existsb (String.eqb (totals_line 0 1)) (logged INFO (snd run)) = true.
Proof. vm_compute. repeat split. Qed.

(** C8, at the input where the code departs from it: the JSON file exists
    and holds one error outcome.  No Telegraph call is made, as the claim
    says, but no totals are reported: the run logs the [TypeError] of
    [imageFiles.length] and exits with status 1. *)
Theorem C8_resumed_run_without_success_reports_no_totals :
  main sample_CONFIG
    (resumed_env [Outcome (error_outcome sample_CONFIG "a.png" "timeout" 10)])
    []
  = (Exit 1,
     [ ELog INFO "程序启动"%string;
       ELog ERROR
         "程序运行出错: Cannot read properties of null (reading 'length')"%string ])
  /\ telegraph_calls
       (snd (main sample_CONFIG
               (resumed_env
                  [Outcome (error_outcome sample_CONFIG "a.png" "timeout" 10)])
               [])) = 0.
Proof. split; reflexivity. Qed.

(** ** Uploads in flight *)

Lemma in_flight_scan_app (t1 t2 : Trace) :
  forall current peak,
    in_flight_scan current peak (t1 ++ t2)
    = in_flight_scan (fst (in_flight_scan current peak t1))
                     (snd (in_flight_scan current peak t1)) t2.
Proof.
  induction t1 as [|e t1 IH]; intros current peak; simpl; [reflexivity|].
  destruct e; apply IH.
Qed.

(** An event that is not an upload event leaves the count as it is. *)
Lemma one_at_a_time_other (t : Trace) (e : Event) :
  upload_events [e] = [] -> one_at_a_time t -> one_at_a_time (t ++ [e]).
Proof.
  unfold one_at_a_time. intros He [Hidle Hpeak].
  rewrite in_flight_scan_app.
  destruct (in_flight_scan 0 0 t) as [current peak]. simpl in *.
  destruct e; simpl in *; try discriminate He; split; assumption.
Qed.

(** A request that is awaited before anything else happens. *)
Lemma one_at_a_time_awaited (t : Trace) (u d f : string)
    (r : UploadResponse) :
  one_at_a_time t ->
  one_at_a_time (t ++ [EUploadRequest u d f; EUploadSettled f r]).
Proof.
  unfold one_at_a_time. intros [Hidle Hpeak].
  rewrite in_flight_scan_app.
  destruct (in_flight_scan 0 0 t) as [current peak]. simpl in *.
  subst current. simpl. split; [reflexivity|lia].
Qed.

Section InFlight.

Variable CONFIG : Config.
Variable env : Env.

Lemma uploadFile_loop_one_at_a_time (file : string) (index total : nat) :
  forall fuel retryCount t,
    one_at_a_time t ->
    one_at_a_time
      (snd (uploadFile_loop CONFIG env fuel file index total retryCount t)).
Proof.
  induction fuel as [|fuel IH]; intros rc t Ht; simpl; [exact Ht|].
  destruct (rc <=? RETRY_TIMES CONFIG); [|exact Ht].
  step_M.
  assert (Hsent :
    one_at_a_time
      ((t ++ [ELog INFO (upload_log_line file index total rc)])
       ++ [EUploadRequest (BASE_URL CONFIG ++ "/upload")%string
             (IMAGE_DIR CONFIG) file;
           EUploadSettled file
             (image_host env
                (upload_calls
                   (t ++ [ELog INFO (upload_log_line file index total rc)]))
                file)])).
  { apply one_at_a_time_awaited, one_at_a_time_other; [reflexivity|exact Ht]. }
  destruct (image_host env _ file) as [src|msg]; simpl; [exact Hsent|].
  destruct (rc =? RETRY_TIMES CONFIG); simpl.
  - apply one_at_a_time_other; [reflexivity|exact Hsent].
  - apply IH, one_at_a_time_other; [reflexivity|exact Hsent].
Qed.

Lemma concurrentUpload_loop_one_at_a_time (total : nat) :
  forall rest i results t,
    one_at_a_time t ->
    one_at_a_time
      (snd (concurrentUpload_loop CONFIG env total rest i results t)).
Proof.
  induction rest as [|file rest IH]; intros i results t Ht; simpl;
    [exact Ht|].
  unfold bind at 1.
  pose proof (uploadFile_loop_one_at_a_time file i total
                (S (S (RETRY_TIMES CONFIG))) 0 t Ht) as Hfile.
  fold (uploadFile CONFIG env file i total) in Hfile.
  destruct (uploadFile CONFIG env file i total t) as [[item|e|c] t1];
    simpl in Hfile; try exact Hfile.
  step_M. apply IH, one_at_a_time_other; [reflexivity|exact Hfile].
Qed.

End InFlight.

(** C3, as the code behaves.  Whatever [CONFIG.CONCURRENCY] is,
    [concurrentUpload] never has more than one upload in flight: each
    request is awaited before the next one is sent, so the tasks are
    uploaded one after the other. *)
Theorem C3_uploads_run_one_at_a_time (CONFIG : Config) (env : Env)
    (files : list string) :
  peak_in_flight (snd (concurrentUpload CONFIG env files [])) <= 1.
Proof.
  unfold concurrentUpload, peak_in_flight. step_M.
  apply (concurrentUpload_loop_one_at_a_time CONFIG env (length files) files
           0 [] _).
  split; simpl; lia.
Qed.

(** With a limit of 10 and two files the second request is sent after the
    first has settled. *)
Example two_files_are_uploaded_in_turn :
  CONCURRENCY sample_CONFIG = 10
  /\ upload_events
       (snd (concurrentUpload sample_CONFIG
               (sample_env (host_failing_first 0) None None)
               ["a.png"; "b.png"]%string []))
     = [ EUploadRequest "https://im.gurl.eu.org/upload" "./images" "a.png";
         EUploadSettled "a.png" (Uploaded "/file/a.png");
         EUploadRequest "https://im.gurl.eu.org/upload" "./images" "b.png";
         EUploadSettled "b.png" (Uploaded "/file/b.png") ]%string
  /\ peak_in_flight
       (snd (concurrentUpload sample_CONFIG
               (sample_env (host_failing_first 0) None None)
               ["a.png"; "b.png"]%string [])) = 1.
Proof. repeat split. Qed.

(** * Further properties of the code *)

(** ** Computations that only append events *)

Lemma appends_only_ret (P : Event -> Prop) {A} (a : A) :
  appends_only P (ret a).
Proof. intros t. exists []. rewrite app_nil_r. split; [reflexivity|constructor]. Qed.

Lemma appends_only_throw (P : Event -> Prop) {A} (e : Exn) :
  appends_only P (@throw A e).
Proof. intros t. exists []. rewrite app_nil_r. split; [reflexivity|constructor]. Qed.

Lemma appends_only_exit (P : Event -> Prop) {A} (c : nat) :
  appends_only P (@process_exit A c).
Proof. intros t. exists []. rewrite app_nil_r. split; [reflexivity|constructor]. Qed.

Lemma appends_only_emit (P : Event -> Prop) (e : Event) :
  P e -> appends_only P (emit e).
Proof.
  intros He t. exists [e]. split; [reflexivity|]. constructor; [exact He|constructor].
Qed.

Lemma appends_only_bind (P : Event -> Prop) {A B} (m : M A) (k : A -> M B) :
  appends_only P m -> (forall a, appends_only P (k a)) ->
  appends_only P (bind m k).
Proof.
  intros Hm Hk t. unfold bind. destruct (Hm t) as (new1 & Ht1 & Hnew1).
  destruct (m t) as [[a|e|c] t1]; simpl in Ht1; subst t1.
  - destruct (Hk a (t ++ new1)) as (new2 & Ht2 & Hnew2).
    exists (new1 ++ new2). rewrite Ht2, app_assoc. split; [reflexivity|].
    apply Forall_app. split; assumption.
  - exists new1. split; [reflexivity|assumption].
  - exists new1. split; [reflexivity|assumption].
Qed.

Lemma appends_only_try_catch (P : Event -> Prop) {A} (m : M A)
    (handler : Exn -> M A) :
  appends_only P m -> (forall e, appends_only P (handler e)) ->
  appends_only P (try_catch m handler).
Proof.
  intros Hm Hh t. unfold try_catch. destruct (Hm t) as (new1 & Ht1 & Hnew1).
  destruct (m t) as [[a|e|c] t1]; simpl in Ht1; subst t1.
  - exists new1. split; [reflexivity|assumption].
  - destruct (Hh e (t ++ new1)) as (new2 & Ht2 & Hnew2).
    exists (new1 ++ new2). rewrite Ht2, app_assoc. split; [reflexivity|].
    apply Forall_app. split; assumption.
  - exists new1. split; [reflexivity|assumption].
Qed.

Lemma appends_only_weaken (P Q : Event -> Prop) {A} (m : M A) :
  (forall e, P e -> Q e) -> appends_only P m -> appends_only Q m.
Proof.
  intros HPQ Hm t. destruct (Hm t) as (new & Ht & Hnew).
  exists new. split; [exact Ht|]. eapply Forall_impl; eassumption.
Qed.

Lemma sleep_count_app (t1 t2 : Trace) :
  sleep_count (t1 ++ t2) = sleep_count t1 + sleep_count t2.
Proof.
  induction t1 as [|e t1 IH]; simpl; [reflexivity|].
  destruct e; simpl; rewrite IH; reflexivity.
Qed.

Lemma progress_of_app (t1 t2 : Trace) :
  progress_of (t1 ++ t2) = progress_of t1 ++ progress_of t2.
Proof.
  induction t1 as [|e t1 IH]; simpl; [reflexivity|].
  destruct e; simpl; rewrite IH; reflexivity.
Qed.


Lemma files_written_app (t1 t2 : Trace) :
  files_written (t1 ++ t2) = files_written t1 ++ files_written t2.
Proof.
  induction t1 as [|e t1 IH]; simpl; [reflexivity|].
  destruct e; simpl; rewrite IH; reflexivity.
Qed.


Lemma edited_paths_app (t1 t2 : Trace) :
  edited_paths (t1 ++ t2) = edited_paths t1 ++ edited_paths t2.
Proof.
  induction t1 as [|e t1 IH]; simpl; [reflexivity|].
  destruct e; simpl; rewrite IH; reflexivity.
Qed.

(** ** [getImageFiles] *)

(** The three ways [getImageFiles] can end. *)
Lemma getImageFiles_cases (CONFIG : Config) (env : Env)
    (t : Trace) :
  (exists listing,
     image_dir env = Some listing
     /\ filter (allowed_file CONFIG env) listing <> []
     /\ getImageFiles CONFIG env t
        = (Ret (filter (allowed_file CONFIG env) listing), t))
  \/ (image_dir env = None
      /\ getImageFiles CONFIG env t
         = (Exit 1,
            t ++ [ELog ERROR
                    ("初始化错误: 图片目录 " ++ IMAGE_DIR CONFIG
                     ++ " 不存在")%string]))
  \/ (exists listing,
        image_dir env = Some listing
        /\ filter (allowed_file CONFIG env) listing = []
        /\ getImageFiles CONFIG env t
           = (Exit 1,
              t ++ [ELog ERROR
                      ("初始化错误: 在 " ++ IMAGE_DIR CONFIG
                       ++ " 中未找到支持的图片文件")%string])).
Proof.
  unfold getImageFiles. destruct (image_dir env) as [listing|] eqn:Hdir.
  - fold (allowed_file CONFIG env).
    destruct (filter (allowed_file CONFIG env) listing) as [|f fs] eqn:Hfilter.
    + right. right. exists listing.
      split; [reflexivity|]. split; [exact Hfilter|reflexivity].
    + left. exists listing. rewrite Hfilter.
      split; [reflexivity|]. split; [discriminate|reflexivity].
  - right. left. split; reflexivity.
Qed.


(** ** [uploadFile]: attempts, delays and what it touches *)

Section UploadFileAccounting.

Variable CONFIG : Config.
Variable env : Env.

Local Abbreviation R := (RETRY_TIMES CONFIG).

Lemma uploadFile_loop_accounting (file : string) (index total : nat) :
  forall fuel retryCount t,
    retryCount <= R -> R - retryCount < fuel ->
    exists o t',
      uploadFile_loop CONFIG env fuel file index total retryCount t
      = (Ret (Outcome o), t')
      /\ retryCount <= retries o <= R
      /\ upload_calls t' = upload_calls t + (retries o - retryCount) + 1
      /\ sleep_count t' = sleep_count t + (retries o - retryCount).
Proof.
  induction fuel as [|fuel IH]; intros rc t Hle Hfuel; [lia|].
  simpl. apply Nat.leb_le in Hle as Hguard. rewrite Hguard.
  step_M.
  destruct (image_host env _ file) as [src|msg].
  - eexists _, _. split; [reflexivity|]. simpl.
    rewrite !upload_calls_app, !sleep_count_app. simpl. lia.
  - destruct (rc =? R) eqn:Hlast.
    + apply Nat.eqb_eq in Hlast.
      eexists _, _. split; [reflexivity|]. simpl.
      rewrite !upload_calls_app, !sleep_count_app. simpl. lia.
    + apply Nat.eqb_neq in Hlast.
      match goal with
      | |- context [uploadFile_loop _ _ _ _ _ _ _ ?t1] =>
          destruct (IH (S rc) t1) as (o & t' & Hrun & Hret & Hcalls & Hsleep);
            [lia|lia|];
          rewrite !upload_calls_app in Hcalls;
          rewrite !sleep_count_app in Hsleep; simpl in Hcalls, Hsleep
      end.
      exists o, t'. split; [exact Hrun|]. lia.
Qed.

Lemma axios_post_upload_appends (file : string) :
  appends_only (upload_event_of CONFIG file) (axios_post_upload CONFIG env file).
Proof.
  intros t. eexists. split; [reflexivity|].
  repeat constructor.
Qed.

Lemma uploadFile_loop_appends (file : string) (index total : nat) :
  forall fuel retryCount,
    appends_only (upload_event_of CONFIG file)
      (uploadFile_loop CONFIG env fuel file index total retryCount).
Proof.
  induction fuel as [|fuel IH]; intros rc; simpl.
  - apply appends_only_ret.
  - destruct (rc <=? R); [|apply appends_only_ret].
    apply appends_only_bind; [apply appends_only_emit; exact I|intros _].
    apply appends_only_bind; [apply axios_post_upload_appends|intros r].
    destruct r as [src|msg]; [apply appends_only_ret|].
    destruct (rc =? R).
    + apply appends_only_bind; [apply appends_only_emit; exact I|intros _].
      apply appends_only_ret.
    + apply appends_only_bind; [apply appends_only_emit; reflexivity|intros _].
      apply IH.
Qed.

Lemma uploadFile_appends (file : string) (index total : nat) :
  appends_only (upload_event_of CONFIG file)
    (uploadFile CONFIG env file index total).
Proof. apply uploadFile_loop_appends. Qed.

(** One successful attempt at [retryCount] settles the task. *)
Lemma uploadFile_loop_accepted (file : string) (index total : nat)
    (fuel retryCount : nat) (t : Trace) (src : string) :
  retryCount <= R ->
  image_host env (upload_calls t) file = Uploaded src ->
  exists t',
    uploadFile_loop CONFIG env (S fuel) file index total retryCount t
    = (Ret (Outcome (success_outcome CONFIG file src retryCount)), t').
Proof.
  intros Hle Hok. simpl. apply Nat.leb_le in Hle. rewrite Hle. step_M.
  rewrite upload_calls_app, Nat.add_0_r, Hok. eexists. reflexivity.
Qed.

End UploadFileAccounting.

(** X2. The [retries] of a success is the number of failed attempts that
    came before it: a task whose first [k] requests fail, with [k] at most
    [RETRY_TIMES], and whose next request is accepted settles as a success
    with [retries = k] and the URL built from the accepted answer. *)
Theorem uploadFile_retries_counts_the_failures (CONFIG : Config) (env : Env)
    (file : string) (index total : nat) (t : Trace) (k : nat) (src : string) :
  k <= RETRY_TIMES CONFIG ->
  (forall j, j < k ->
     exists msg, image_host env (upload_calls t + j) file = UploadFailed msg) ->
  image_host env (upload_calls t + k) file = Uploaded src ->
  exists t',
    uploadFile CONFIG env file index total t
    = (Ret (Outcome {| filename := file;
                       url := Some (BASE_URL CONFIG ++ src)%string;
                       status := "success"; error := None; retries := k |}),
       t').
Proof.
  intros Hk Hfail Hok. unfold uploadFile.
  destruct (uploadFile_loop_failures CONFIG env file index total k
              (S (S (RETRY_TIMES CONFIG)) - k) 0 t)
    as (t1 & Hcalls & Hrun); [lia|exact Hfail|].
  replace (k + (S (S (RETRY_TIMES CONFIG)) - k))
    with (S (S (RETRY_TIMES CONFIG))) in Hrun by lia.
  rewrite Hrun, Nat.add_0_l.
  replace (S (S (RETRY_TIMES CONFIG)) - k)
    with (S (S (RETRY_TIMES CONFIG) - k)) by lia.
  apply uploadFile_loop_accepted; [exact Hk|].
  rewrite Hcalls. exact Hok.
Qed.

(** The run of X2 with three rejected requests. *)
Lemma uploadFile_retries_counts_the_failures_witness :
  exists t',
    uploadFile sample_CONFIG (sample_env (host_failing_first 3) None None)
      "a.png" 0 1 []
    = (Ret (Outcome {| filename := "a.png";
                       url := Some "https://im.gurl.eu.org/file/a.png"%string;
                       status := "success"; error := None; retries := 3 |}),
       t').
Proof.
  apply (uploadFile_retries_counts_the_failures sample_CONFIG
           (sample_env (host_failing_first 3) None None)
           "a.png" 0 1 [] 3 "/file/a.png").
  - simpl. lia.
  - intros j Hj. exists "socket hang up"%string. simpl.
    unfold host_failing_first. apply Nat.ltb_lt in Hj. rewrite Hj. reflexivity.
  - reflexivity.
Defined.

(** What one call of [uploadFile] sends, waits and leaves. *)
Lemma uploadFile_accounting (CONFIG : Config) (env : Env)
    (file : string) (index total : nat) (t : Trace) :
  exists o new,
    uploadFile CONFIG env file index total t = (Ret (Outcome o), t ++ new)
    /\ upload_calls new = retries o + 1
    /\ upload_calls new <= RETRY_TIMES CONFIG + 1
    /\ sleep_count new = retries o
    /\ Forall (upload_event_of CONFIG file) new.
Proof.
  destruct (uploadFile_loop_accounting CONFIG env file index total
              (S (S (RETRY_TIMES CONFIG))) 0 t)
    as (o & t' & Hrun & Hret & Hcalls & Hsleep); [lia|lia|].
  destruct (uploadFile_appends CONFIG env file index total t)
    as (new & Htrace & Hnew).
  unfold uploadFile in Htrace. rewrite Hrun in Htrace. simpl in Htrace.
  subst t'. rewrite upload_calls_app in Hcalls.
  rewrite sleep_count_app in Hsleep.
  exists o, new. repeat split; try assumption; lia.
Qed.

(** X3. One call of [uploadFile] sends [retries + 1] upload requests, at
    most [RETRY_TIMES + 1], and waits [retries] times; everything it leaves
    in the trace is a log line, a request for its own file to
    [BASE_URL/upload], the settlement of such a request, or a delay of
    [RETRY_DELAY]. *)
Theorem uploadFile_attempts_and_delays (CONFIG : Config) (env : Env)
    (file : string) (index total : nat) (t : Trace) :
  exists o new,
    uploadFile CONFIG env file index total t = (Ret (Outcome o), t ++ new)
    /\ upload_calls new = retries o + 1
    /\ upload_calls new <= RETRY_TIMES CONFIG + 1
    /\ sleep_count new = retries o
    /\ Forall (upload_event_of CONFIG file) new.
Proof. apply uploadFile_accounting. Qed.

(** ** [concurrentUpload]: requests, events and progress *)

Lemma retries_sum_bound (bound : nat) (outs : list UploadOutcome) :
  Forall (fun o => retries o <= bound) outs ->
  list_sum (map (fun o => retries o + 1) outs) <= length outs * (bound + 1).
Proof.
  induction 1 as [|o outs Ho _ IH]; simpl; [lia|]. lia.
Qed.

Lemma upload_event_is_pipeline_event (CONFIG : Config) (files : list string)
    (file : string) (e : Event) :
  In file files -> upload_event_of CONFIG file e -> pipeline_event CONFIG files e.
Proof.
  intros Hin He. destruct e; simpl in *; try exact I; try contradiction.
  - destruct He as (Hu & Hd & ->). repeat split; assumption.
  - subst file0. exact Hin.
  - exact He.
Qed.

Lemma upload_event_no_progress (CONFIG : Config) (file : string)
    (new : Trace) :
  Forall (upload_event_of CONFIG file) new -> progress_of new = [].
Proof.
  induction 1 as [|e new He _ IH]; [reflexivity|].
  destruct e; simpl in *; try contradiction; exact IH.
Qed.

Lemma pipeline_event_no_telegraph (CONFIG : Config) (files : list string)
    (new : Trace) :
  Forall (pipeline_event CONFIG files) new ->
  telegraph_calls new = 0 /\ files_written new = []
  /\ results_written new = [].
Proof.
  induction 1 as [|e new He _ IH]; [repeat split|].
  destruct e; simpl in *; try exact IH; contradiction.
Qed.

Section ConcurrentUploadAccounting.

Variable CONFIG : Config.
Variable env : Env.

Lemma concurrentUpload_loop_accounting (total : nat) :
  forall rest i results t,
    exists outs t',
      concurrentUpload_loop CONFIG env total rest i results t
      = (Ret (results ++ map Outcome outs), t')
      /\ length outs = length rest
      /\ Forall (fun o => retries o <= RETRY_TIMES CONFIG) outs
      /\ upload_calls t'
         = upload_calls t + list_sum (map (fun o => retries o + 1) outs)
      /\ progress_of t'
         = progress_of t
           ++ map (fun done => (done, total)) (seq (i + 1) (length rest)).
Proof.
  induction rest as [|file rest IH]; intros i results t.
  - exists [], t. simpl. rewrite !app_nil_r. repeat split; [constructor|lia].
  - simpl. unfold bind at 1.
    destruct (uploadFile_accounting CONFIG env file i total t)
      as (o & new & Hrun & Hcalls & Hbound & _ & Hnew).
    rewrite Hrun. step_M.
    destruct (IH (S i) (results ++ [Outcome o])
                (t ++ new ++ [EProgress (i + 1) total]))
      as (outs & t' & Hloop & Hlen & Hall & Hsum & Hprog).
    rewrite <- app_assoc.
    exists (o :: outs), t'. rewrite Hloop, <- app_assoc. simpl.
    split; [reflexivity|]. split; [lia|].
    split; [constructor; [lia|exact Hall]|].
    split.
    + rewrite Hsum, !upload_calls_app. simpl. lia.
    + rewrite Hprog, !progress_of_app,
        (upload_event_no_progress CONFIG file new Hnew).
      simpl. rewrite <- app_assoc. simpl.
      replace (S i + 1) with (S (i + 1)) by lia. reflexivity.
Qed.

Lemma concurrentUpload_loop_appends (total : nat) (files : list string) :
  forall rest i results,
    incl rest files ->
    appends_only (pipeline_event CONFIG files)
      (concurrentUpload_loop CONFIG env total rest i results).
Proof.
  induction rest as [|file rest IH]; intros i results Hincl; simpl.
  - apply appends_only_ret.
  - apply appends_only_bind.
    + apply (appends_only_weaken (upload_event_of CONFIG file)).
      * intros e. apply upload_event_is_pipeline_event.
        apply Hincl. left. reflexivity.
      * apply uploadFile_appends.
    + intros result.
      apply appends_only_bind; [apply appends_only_emit; exact I|intros _].
      apply IH. intros f Hf. apply Hincl. right. exact Hf.
Qed.

Lemma concurrentUpload_appends (files : list string) :
  appends_only (pipeline_event CONFIG files)
    (concurrentUpload CONFIG env files).
Proof.
  unfold concurrentUpload.
  apply appends_only_bind; [apply appends_only_emit; exact I|intros _].
  apply concurrentUpload_loop_appends. apply incl_refl.
Qed.

(** [concurrentUpload] returns normally, with one outcome per file. *)
Lemma concurrentUpload_returns (files : list string) (t : Trace) :
  exists outs t',
    concurrentUpload CONFIG env files t = (Ret (map Outcome outs), t')
    /\ map filename outs = files.
Proof.
  unfold concurrentUpload. step_M.
  match goal with
  | |- context [concurrentUpload_loop _ _ _ _ _ _ ?t0] =>
      destruct (concurrentUpload_loop_returns CONFIG env (length files)
                  files 0 [] t0)
        as (outs & t' & Hloop & Hnames & _)
  end.
  exists outs, t'. split; [exact Hloop|exact Hnames].
Qed.

End ConcurrentUploadAccounting.

(** X4. [concurrentUpload] sends, for each file, one request more than the
    [retries] of its outcome: over N files that is at least N and at most
    N times [RETRY_TIMES + 1] upload requests. *)
Theorem concurrentUpload_request_budget (CONFIG : Config) (env : Env)
    (files : list string) (t : Trace) :
  exists outs t',
    concurrentUpload CONFIG env files t = (Ret (map Outcome outs), t')
    /\ length outs = length files
    /\ upload_calls t'
       = upload_calls t + list_sum (map (fun o => retries o + 1) outs)
    /\ upload_calls t + length files <= upload_calls t'
    /\ upload_calls t'
       <= upload_calls t + length files * (RETRY_TIMES CONFIG + 1).
Proof.
  unfold concurrentUpload. step_M.
  match goal with
  | |- context [concurrentUpload_loop _ _ _ _ _ _ ?t0] =>
      destruct (concurrentUpload_loop_accounting CONFIG env (length files)
                  files 0 [] t0)
        as (outs & t' & Hloop & Hlen & Hall & Hsum & _)
  end.
  rewrite upload_calls_app in Hsum. simpl in Hsum, Hloop.
  exists outs, t'. split; [exact Hloop|]. split; [exact Hlen|].
  pose proof (retries_sum_bound (RETRY_TIMES CONFIG) outs Hall) as Hupper.
  assert (Hlower : length outs
                   <= list_sum (map (fun o => retries o + 1) outs)).
  { clear. induction outs as [|o outs IH]; simpl; lia. }
  rewrite Hlen in Hupper, Hlower. lia.
Qed.

(** X5. [concurrentUpload] only appends to the trace, and what it appends
    are log lines, progress lines, delays of [RETRY_DELAY], and requests
    (with their settlements) that upload one of the given files to
    [BASE_URL/upload] from [IMAGE_DIR]: it sends nothing to Telegraph and
    writes no file. *)
Theorem concurrentUpload_touches_only_its_files (CONFIG : Config) (env : Env)
    (files : list string) (t : Trace) :
  exists new,
    snd (concurrentUpload CONFIG env files t) = t ++ new
    /\ Forall (pipeline_event CONFIG files) new
    /\ telegraph_calls new = 0
    /\ files_written new = []
    /\ results_written new = [].
Proof.
  destruct (concurrentUpload_appends CONFIG env files t)
    as (new & Htrace & Hnew).
  exists new. split; [exact Htrace|]. split; [exact Hnew|].
  apply (pipeline_event_no_telegraph CONFIG files new Hnew).
Qed.


(** ** The stages of [main] *)

(** What the [filter] of [main] yields. *)
Lemma filter_success_cases (t : Trace) :
  (forall outs,
     filter_success (map Outcome outs) t = (Ret (filter is_success outs), t))
  /\ (forall items,
        In Null items \/ In Undefined items ->
        exists msg, filter_success items t = (Throw (TypeError msg), t)).
Proof.
  split.
  - induction outs as [|o outs IH]; simpl; [reflexivity|].
    unfold bind. rewrite IH. reflexivity.
  - induction items as [|item items IH]; intros Hbad.
    + destruct Hbad as [[]|[]].
    + destruct item as [o| |]; simpl.
      * destruct IH as [msg Hmsg].
        { destruct Hbad as [[Heq|Hin]|[Heq|Hin]]; try discriminate;
            [left|right]; exact Hin. }
        exists msg. unfold bind. rewrite Hmsg. reflexivity.
      * eexists. reflexivity.
      * eexists. reflexivity.
Qed.

(** X7. The [filter] of [main] keeps, in order, exactly the outcome objects
    whose [status] is the string "success", and leaves the trace alone; an
    array that holds a [null] or an [undefined] makes it throw a
    [TypeError] instead. *)
Theorem filter_success_keeps_the_successes (t : Trace) :
  (forall outs,
     filter_success (map Outcome outs) t = (Ret (filter is_success outs), t))
  /\ (forall items,
        In Null items \/ In Undefined items ->
        exists msg, filter_success items t = (Throw (TypeError msg), t)).
Proof. apply filter_success_cases. Qed.

Lemma has_slash_app (a b : string) :
  has_slash (a ++ b)%string = has_slash a || has_slash b.
Proof.
  induction a as [|c a IH]; simpl; [reflexivity|].
  rewrite IH. apply orb_assoc.
Qed.

Lemma split_pop_from_app (a b : string) :
  forall acc,
    split_pop_from (a ++ b)%string acc
    = split_pop_from b (split_pop_from a acc).
Proof.
  induction a as [|c a IH]; intros acc; simpl; [reflexivity|].
  destruct (Ascii.eqb c "/"); apply IH.
Qed.

Lemma split_pop_from_no_slash (s : string) :
  forall acc, has_slash s = false -> split_pop_from s acc = (acc ++ s)%string.
Proof.
  induction s as [|c s IH]; intros acc Hs; simpl in *.
  - induction acc as [|a acc IHacc]; simpl; [reflexivity|].
    rewrite <- IHacc. reflexivity.
  - apply orb_false_iff in Hs. destruct Hs as [Hc Hs]. rewrite Hc.
    rewrite (IH _ Hs).
    clear. induction acc as [|a acc IHacc]; simpl; [reflexivity|].
    rewrite IHacc. reflexivity.
Qed.

Lemma split_pop_from_has_no_slash (s : string) :
  forall acc,
    has_slash acc = false -> has_slash (split_pop_from s acc) = false.
Proof.
  induction s as [|c s IH]; intros acc Hacc; simpl; [exact Hacc|].
  destruct (Ascii.eqb c "/") eqn:Hc.
  - apply IH. reflexivity.
  - apply IH. rewrite has_slash_app, Hacc. simpl. rewrite Hc. reflexivity.
Qed.

(** X8. [pageUrl.split("/").pop()] is the part of the URL after its last
    slash: for a URL that ends in a slash followed by a segment without
    slash it is that segment, and in every case it holds no slash. *)
Theorem split_pop_is_the_last_segment (prefix segment : string) :
  has_slash segment = false ->
  split_pop (prefix ++ "/" ++ segment)%string = segment
  /\ forall pageUrl, has_slash (split_pop pageUrl) = false.
Proof.
  intros Hseg. split.
  - unfold split_pop. rewrite split_pop_from_app. simpl.
    apply (split_pop_from_no_slash segment ""%string Hseg).
  - intros pageUrl. apply split_pop_from_has_no_slash. reflexivity.
Qed.

(** The path of a Telegraph page URL. *)
Lemma split_pop_is_the_last_segment_witness :
  split_pop "https://telegra.ph/album-2024-01-01"%string
  = "album-2024-01-01"%string
  /\ forall pageUrl, has_slash (split_pop pageUrl) = false.
Proof.
  apply (split_pop_is_the_last_segment "https://telegra.ph"
           "album-2024-01-01").
  reflexivity.
Defined.



(** ** Whole runs of [main] *)



Section Runs.

Variable CONFIG : Config.
Variable env : Env.

(** The stages of a fresh run after the upload, up to the report. *)
Lemma calm_fresh_stages (results : ResultsValue) (files : list string) :
  calm (successResults <- main_successResults results ;;
        main_assemble CONFIG env successResults ;;
        main_report CONFIG env successResults (Some files)).
Proof.
  apply calm_bind; [apply calm_main_successResults|intros succ].
  apply calm_bind; [apply calm_main_assemble|intros _].
  apply calm_main_report.
Qed.

(** [main] after its start line, given what [main_load] did. *)
Lemma main_after_load (t : Trace) (r : Result (ResultsValue * option (list string)))
    (t1 : Trace) :
  main_load CONFIG env (t ++ [ELog INFO "程序启动"%string]) = (r, t1) ->
  main CONFIG env t
  = match r with
    | Ret (results, imageFiles) =>
        try_catch
          (successResults <- main_successResults results ;;
           main_assemble CONFIG env successResults ;;
           main_report CONFIG env successResults imageFiles)
          (fun error =>
             writeLog ERROR ("程序运行出错: " ++ message error)%string ;;
             process_exit 1) t1
    | Throw e =>
        (Exit 1, t1 ++ [ELog ERROR ("程序运行出错: " ++ message e)%string])
    | Exit c => (Exit c, t1)
    end.
Proof.
  intros Hload. rewrite main_unfold. unfold try_catch, bind at 1.
  rewrite Hload. destruct r as [[results imageFiles]|e|c]; reflexivity.
Qed.

(** A [catch] that exits turns a computation that does not exit into one
    that returns or exits with status 1. *)
Lemma caught_calm_returns_or_exits {A} (m : M A) (t : Trace)
    (text : Exn -> string) :
  calm m ->
  (exists a, fst (try_catch m
                    (fun error => writeLog ERROR (text error) ;; process_exit 1)
                    t) = Ret a)
  \/ fst (try_catch m
            (fun error => writeLog ERROR (text error) ;; process_exit 1) t)
     = Exit 1.
Proof.
  intros Hcalm. unfold try_catch. destruct (Hcalm t) as [_ Hexit].
  destruct (m t) as [[a|e|c] t1]; simpl in *.
  - left. exists a. reflexivity.
  - right. reflexivity.
  - exfalso. apply (Hexit c). reflexivity.
Qed.

End Runs.

(** X11. Every run of [main] ends in one of two ways: it returns normally,
    or the process exits with status 1.  No exception leaves [main] and no
    other exit status occurs. *)
Theorem main_returns_or_exits_with_1 (CONFIG : Config) (env : Env)
    (t : Trace) :
  fst (main CONFIG env t) = Ret tt \/ fst (main CONFIG env t) = Exit 1.
Proof.
  destruct (main_load CONFIG env (t ++ [ELog INFO "程序启动"%string]))
    as [r t1] eqn:Hload.
  rewrite (main_after_load CONFIG env t r t1 Hload).
  destruct r as [[results imageFiles]|e|c].
  - match goal with
    | |- context [try_catch ?m ?h t1] =>
        destruct (caught_calm_returns_or_exits m t1
                    (fun error => ("程序运行出错: " ++ message error)%string))
          as [[[] Hret]|Hexit]
    end.
    + destruct imageFiles as [files|];
        [apply calm_fresh_stages|apply calm_resumed_stages].
    + left. exact Hret.
    + right. exact Hexit.
  - right. reflexivity.
  - right. simpl. f_equal.
    unfold main_load in Hload.
    destruct (result_json env) as [[results|msg]|]; try discriminate Hload.
    unfold bind at 1 in Hload.
    destruct (getImageFiles_cases CONFIG env
                (t ++ [ELog INFO "程序启动"%string]))
      as [(listing & _ & _ & Hget)|[(_ & Hget)|(listing & _ & _ & Hget)]];
      rewrite Hget in Hload.
    + unfold bind at 1 in Hload.
      destruct (concurrentUpload_returns CONFIG env
                  (filter (allowed_file CONFIG env) listing)
                  (t ++ [ELog INFO "程序启动"%string]))
        as (outs & t' & Hup & _).
      rewrite Hup in Hload. discriminate Hload.
    + inversion Hload. reflexivity.
    + inversion Hload. reflexivity.
Qed.

(** X12. A fresh run (no JSON file) whose directory is missing or holds no
    allowed image ends inside [getImageFiles]: the trace holds the start
    line and the one error line of the scan, the process exits with status
    1, and nothing is uploaded, sent to Telegraph or written; the [catch]
    of [main] does not run. *)
Theorem main_exits_when_scan_fails (CONFIG : Config) (env : Env) (t : Trace) :
  result_json env = None ->
  match image_dir env with
  | None =>
      main CONFIG env t
      = (Exit 1,
         t ++ [ELog INFO "程序启动"%string;
               ELog ERROR ("初始化错误: 图片目录 " ++ IMAGE_DIR CONFIG
                           ++ " 不存在")%string])
  | Some listing =>
      filter (allowed_file CONFIG env) listing = [] ->
      main CONFIG env t
      = (Exit 1,
         t ++ [ELog INFO "程序启动"%string;
               ELog ERROR ("初始化错误: 在 " ++ IMAGE_DIR CONFIG
                           ++ " 中未找到支持的图片文件")%string])
  end.
Proof.
  intros Hjson.
  destruct (getImageFiles_cases CONFIG env
              (t ++ [ELog INFO "程序启动"%string]))
    as [(listing & Hdir & Hsome & Hget)|[(Hdir & Hget)
                                       |(listing & Hdir & Hnone & Hget)]];
    rewrite Hdir; try intros Hempty; try contradiction.
  - rewrite (main_after_load CONFIG env t (Exit 1) _
               ltac:(unfold main_load, bind; rewrite Hjson, Hget; reflexivity)).
    rewrite <- app_assoc. reflexivity.
  - rewrite (main_after_load CONFIG env t (Exit 1) _
               ltac:(unfold main_load, bind; rewrite Hjson, Hget; reflexivity)).
    rewrite <- app_assoc. reflexivity.
Qed.

(** The run of X12 in a world without the image directory. *)
Lemma main_exits_when_scan_fails_witness :
  main sample_CONFIG (sample_env (host_failing_first 0) None None) []
  = (Exit 1,
     [] ++ [ELog INFO "程序启动"%string;
            ELog ERROR ("初始化错误: 图片目录 " ++ IMAGE_DIR sample_CONFIG
                        ++ " 不存在")%string]).
Proof.
  exact (main_exits_when_scan_fails sample_CONFIG
           (sample_env (host_failing_first 0) None None) [] eq_refl).
Defined.



(** X14. A run that finds the JSON file holding an array of outcome
    objects assembles exactly the stored outcomes whose status is
    "success", right after the start line.  If the assembly stage returns
    (the page is published and the Markdown file written, or there was no
    success), the run still ends with the [TypeError] of
    [imageFiles.length] and exit status 1, and no totals are logged; if the
    assembly stage throws, the run logs that error and exits with status
    1. *)
Theorem resumed_run_assembles_the_stored_successes (CONFIG : Config)
    (env : Env) (outs : list UploadOutcome) (t : Trace) :
  result_json env = Some (Parsed (VArray (map Outcome outs))) ->
  (forall t2,
     main_assemble CONFIG env (filter is_success outs)
       (t ++ [ELog INFO "程序启动"%string]) = (Ret tt, t2) ->
     main CONFIG env t
     = (Exit 1,
        t2 ++ [ELog ERROR
                 ("程序运行出错: " ++ null_length_message)%string]))
  /\ (forall e t2,
        main_assemble CONFIG env (filter is_success outs)
          (t ++ [ELog INFO "程序启动"%string]) = (Throw e, t2) ->
        main CONFIG env t
        = (Exit 1,
           t2 ++ [ELog ERROR ("程序运行出错: " ++ message e)%string])).
Proof.
  intros Hjson.
  pose proof (main_load_resumed CONFIG env _
                (t ++ [ELog INFO "程序启动"%string]) Hjson) as Hload.
  simpl in Hload.
  split; [intros t2 Hasm|intros e t2 Hasm];
    rewrite (main_after_load CONFIG env t _ _ Hload);
    unfold try_catch, bind at 1; unfold main_successResults;
    rewrite (proj1 (filter_success_cases _) outs);
    unfold bind at 1; rewrite Hasm; reflexivity.
Qed.

(** The run of X14 on the two stored successes of the specification's
    example: the page is created and edited, the Markdown file is written,
    and the run exits with status 1. *)
Lemma resumed_run_assembles_the_stored_successes_witness :
  exists t2,
    files_written t2
    = [(RESULT_MD sample_CONFIG,
        generateMarkdown sample_CONFIG two_successes "token-1"
          "https://telegra.ph/album-2024-01-01")]
    /\ main sample_CONFIG (resumed_env (map Outcome two_successes)) []
       = (Exit 1,
          t2 ++ [ELog ERROR
                   ("程序运行出错: " ++ null_length_message)%string]).
Proof.
  exists (snd (main_assemble sample_CONFIG
                 (resumed_env (map Outcome two_successes)) two_successes
                 [ELog INFO "程序启动"%string])).
  split; [reflexivity|].
  apply (proj1 (resumed_run_assembles_the_stored_successes sample_CONFIG
                  (resumed_env (map Outcome two_successes))
                  two_successes [] eq_refl)).
  reflexivity.
Defined.
